(** * check-secrets: certificate expiry scan over Istio gateways

    A shallow embedding of [main.go].  The program lists the namespaces of a
    cluster, lists the gateways of every namespace, fetches the TLS secret of
    every terminating server of every gateway, and prints the [notAfter] date
    that [openssl] reports for each certificate.

    Conventions of the embedding
    - a Go [string] is a [string] (a sequence of 8-bit characters), a Go
      [[]byte] is a [list byte];
    - a Go [error] is the text that its [Error()] method returns, and a
      possibly-nil error is an [option error];
    - a Go function with several results returns a tuple, exactly as in Go
      (so a failing call still returns its zero-valued first component);
    - calls to the API server, the [openssl] process and [fmt.Printf] are
      recorded, in order, in a trace of [event]s. *)

From Stdlib Require Import ZArith List String Ascii DecimalString.
From Stdlib.Strings Require Import Byte.
From stdpp Require Import gmap strings list fin_maps.

#[local] Open Scope Z_scope.
#[local] Set Default Proof Using "Type".

(** ** Go strings and errors *)

Definition error : Type := string.

(** The line feed that ends every printed line. *)
Definition nl : string := String "010"%char EmptyString.

(** [%v] applied to a possibly-nil error. *)
Definition fmt_error (err : option error) : string :=
  match err with
  | Some e => e
  | None => "<nil>"
  end.

(** [strconv.Itoa] / [%d]. *)
Definition Itoa (n : Z) : string := NilZero.string_of_int (Z.to_int n).

(** [fmt.Println] of two operands: separated by one space, ended by a line feed. *)
Definition Sprintln2 (a b : string) : string := a +:+ " " +:+ b +:+ nl.

Module strings.

(** [s[n:]] *)
Fixpoint drop (n : nat) (s : string) : string :=
  match n, s with
  | O, _ => s
  | S n', String _ s' => drop n' s'
  | S _, EmptyString => EmptyString
  end.

Definition HasPrefix (s prefix : string) : bool := String.prefix prefix s.

Definition TrimPrefix (s prefix : string) : string :=
  if HasPrefix s prefix then drop (String.length prefix) s else s.

(** The table [asciiSpace] of package [strings]. *)
Definition asciiSpace (c : ascii) : bool :=
  match N_of_ascii c with
  | 9%N | 10%N | 11%N | 12%N | 13%N | 32%N => true
  | _ => false
  end.

(** [c >= utf8.RuneSelf] *)
Definition nonASCII (c : ascii) : bool := (128 <=? N_of_ascii c)%N.

Section TrimSpace.
(** [TrimSpace] has a byte-wise path for ASCII input and falls back to
    the rune-wise [TrimFunc] and [TrimRightFunc] of the Go library (with
    [unicode.IsSpace]) as soon as it meets a byte >= 0x80.  The two
    fallbacks are library code and are taken as parameters. *)
Variable TrimFunc_IsSpace : string -> string.
Variable TrimRightFunc_IsSpace : string -> string.

(** Second loop of [TrimSpace], run over the reversed remainder:
    [inl] is the reversed result of the byte-wise path, [inr] the
    reversed slice [s[start:stop]] handed to [TrimRightFunc]. *)
Fixpoint trimStop (r : list ascii) : list ascii + list ascii :=
  match r with
  | [] => inl []
  | c :: r' =>
      if nonASCII c then inr r
      else if asciiSpace c then trimStop r'
      else inl r
  end.

(** First loop of [TrimSpace] followed by the rest of the function. *)
Fixpoint TrimSpace (s : string) : string :=
  match s with
  | EmptyString => EmptyString
  | String c s' =>
      if nonASCII c then TrimFunc_IsSpace s
      else if asciiSpace c then TrimSpace s'
      else
        match trimStop (rev (list_ascii_of_string s)) with
        | inl r => string_of_list_ascii (rev r)
        | inr r => TrimRightFunc_IsSpace (string_of_list_ascii (rev r))
        end
  end.
End TrimSpace.

End strings.

Module bytes.

(** [bytes.HasPrefix] *)
Fixpoint HasPrefix (s prefix : list byte) : bool :=
  match prefix, s with
  | [], _ => true
  | p :: prefix', b :: s' => Byte.eqb p b && HasPrefix s' prefix'
  | _ :: _, [] => false
  end.

(** [bytes.ReplaceAll s old new] for a non-empty [old], as both call sites
    have it: the occurrences of [old] are looked for from left to right
    and do not overlap.  [skip] counts the bytes of the current match that
    are still to be dropped. *)
Fixpoint replaceFrom (old new : list byte) (skip : nat) (s : list byte) : list byte :=
  match s with
  | [] => []
  | b :: s' =>
      match skip with
      | S k => replaceFrom old new k s'
      | O =>
          if HasPrefix s old
          then new ++ replaceFrom old new (Nat.pred (length old)) s'
          else b :: replaceFrom old new O s'
      end
  end.

Definition ReplaceAll (s old new : list byte) : list byte := replaceFrom old new O s.

End bytes.

(** ** encoding/base64: [StdEncoding.DecodeString]

    The decoder of the Go library, in its non-strict standard encoding with
    padding character [=].  Its documentation reads: "If the input is
    malformed, it returns the partially decoded data and CorruptInputError.
    New line characters (\r and \n) are ignored."

    [Decode] calls [decodeQuantum] until the input is used up; the two loops
    are fused here into one recursion over the input, [j] being the index
    into the quantum under construction.  The bulk paths of [Decode]
    ([assemble64], [assemble32]) only apply to runs of valid characters and
    yield what [decodeQuantum] yields, so they are not modelled apart. *)
Module base64.

Definition byte_of_Z (z : Z) : byte :=
  match Byte.of_N (Z.to_N (z mod 256)) with
  | Some b => b
  | None => x00
  end.

Definition Z_of_byte (b : byte) : Z := Z.of_N (Byte.to_N b).

(** The alphabet of the standard encoding, in value order. *)
Definition encodeStd : list byte :=
  list_byte_of_string
    "ABCDEFGHIJKLMNOPQRSTUVWXYZabcdefghijklmnopqrstuvwxyz0123456789+/".

Definition padChar : byte := "="%byte.

(** [enc.decodeMap]: the value of a character of the alphabet, 0xff for
    any other byte. *)
Definition decodeMap (b : byte) : Z :=
  let c := Z_of_byte b in
  if (65 <=? c) && (c <=? 90) then c - 65
  else if (97 <=? c) && (c <=? 122) then c - 97 + 26
  else if (48 <=? c) && (c <=? 57) then c - 48 + 52
  else if c =? 43 then 62
  else if c =? 47 then 63
  else 255.

Definition isNewline (b : byte) : bool :=
  Byte.eqb b "010"%byte || Byte.eqb b "013"%byte.

(** [CorruptInputError(n).Error()] *)
Definition CorruptInputError (n : Z) : error :=
  "illegal base64 data at input byte " +:+ Itoa n.

(** The three bytes of a quantum; [dlen - 1] of them are written. *)
Definition quantum (dlen : nat) (d0 d1 d2 d3 : Z) : list byte :=
  let val := Z.lor (Z.lor (Z.lor (Z.shiftl d0 18) (Z.shiftl d1 12)) (Z.shiftl d2 6)) d3 in
  take (Nat.pred dlen)
    [byte_of_Z (Z.shiftr val 16); byte_of_Z (Z.shiftr val 8); byte_of_Z val].

(** [for si < len(src) && (src[si] == '\n' || src[si] == '\r') { si++ }] *)
Fixpoint skipNewlines (src : list byte) (si : Z) : list byte * Z :=
  match src with
  | b :: src' => if isNewline b then skipNewlines src' (si + 1) else (src, si)
  | [] => ([], si)
  end.

(** End of a padded quantum: newlines may follow, anything else is
    trailing garbage; the bytes decoded so far are still written. *)
Definition finish (dst : list byte) (dlen : nat) (d0 d1 d2 : Z)
    (src : list byte) (si : Z) : list byte * option error :=
  let '(rest, si') := skipNewlines src si in
  (dst ++ quantum dlen d0 d1 d2 0,
   match rest with
   | [] => None
   | _ :: _ => Some (CorruptInputError si')
   end).

(** [src] is the input from index [si] on, [d0 d1 d2] the values already
    read into the quantum, [dst] the bytes already decoded. *)
Fixpoint decode (src : list byte) (si : Z) (j : nat) (d0 d1 d2 : Z)
    (dst : list byte) : list byte * option error :=
  match src with
  | [] =>
      match j with
      | O => (dst, None)
      | _ => (dst, Some (CorruptInputError (si - Z.of_nat j)))
      end
  | c :: rest =>
      let si := si + 1 in
      let out := decodeMap c in
      if negb (out =? 255) then
        match j with
        | 0%nat => decode rest si 1 out 0 0 dst
        | 1%nat => decode rest si 2 d0 out 0 dst
        | 2%nat => decode rest si 3 d0 d1 out dst
        | _ => decode rest si 0 0 0 0 (dst ++ quantum 4 d0 d1 d2 out)
        end
      else if isNewline c then decode rest si j d0 d1 d2 dst
      else if negb (Byte.eqb c padChar) then (dst, Some (CorruptInputError (si - 1)))
      else
        match j with
        | 0%nat | 1%nat => (dst, Some (CorruptInputError (si - 1)))
        | 2%nat =>
            match skipNewlines rest si with
            | ([], si') => (dst, Some (CorruptInputError si'))
            | (c' :: rest', si') =>
                if negb (Byte.eqb c' padChar)
                then (dst, Some (CorruptInputError (si' - 1)))
                else finish dst 2 d0 d1 0 rest' (si' + 1)
            end
        | _ => finish dst 3 d0 d1 d2 rest si
        end
  end.

(** [StdEncoding.DecodeString]: the decoded prefix and the error, if any. *)
Definition DecodeString (s : string) : list byte * option error :=
  decode (list_byte_of_string s) 0 0 0 0 0 [].

End base64.

(** ** Data model *)

(** A value of Go's [interface{}] as the JSON decoder of the API machinery
    produces it: [nil], [bool], [int64], [float64] (its 64 bits), [string],
    [[]interface{}] and [map[string]interface{}]. *)
#[local] Unset Elimination Schemes.
Inductive value : Type :=
  | VNil
  | VBool (b : bool)
  | VInt (n : Z)
  | VFloat (bits : Z)
  | VString (s : string)
  | VSlice (l : list value)
  | VMap (m : gmap string value).
#[local] Set Elimination Schemes.

(** [unstructured.Unstructured] *)
Record Unstructured : Type := { Object : gmap string value }.

(** [corev1.Secret]: the fields that the program reads. *)
Record Secret : Type := {
  Name : string;
  Namespace : string;
  Data : gmap string (list byte)
}.

#[global] Instance byte_eq_dec : EqDecision byte := Byte.byte_eq_dec.

(** [corev1.Namespace] *)
Record NamespaceItem : Type := { nsName : string }.

(** What a call to the API server yields. *)
Inductive result (A : Type) : Type :=
  | Ok (a : A)
  | Err (e : error).
Arguments Ok {A} a.
Arguments Err {A} e.

(** ** k8s.io/apimachinery: the [unstructured] accessors *)
Module unstructured.

(** [jsonPath]: the fields joined by dots, with a leading dot. *)
Definition jsonPath (fields : list string) : string :=
  "." +:+ String.concat "." fields.

(** [%T] *)
Definition typeName (v : value) : string :=
  match v with
  | VNil => "<nil>"
  | VBool _ => "bool"
  | VInt _ => "int64"
  | VFloat _ => "float64"
  | VString _ => "string"
  | VSlice _ => "[]interface {}"
  | VMap _ => "map[string]interface {}"
  end.

Section Accessors.
(** [%v] of a dynamically typed value is the business of package [fmt];
    it only occurs inside the text of accessor errors. *)
Variable fmt_value : value -> string.

Definition accessorError (path : list string) (v : value) (expected : string) : error :=
  jsonPath path +:+ " accessor error: " +:+ fmt_value v +:+ " is of the type "
    +:+ typeName v +:+ ", expected " +:+ expected.

(** The loop of [NestedFieldNoCopy]; [seen] are the fields already
    walked, for the path of the error message. *)
Fixpoint nestedField (val : value) (seen fields : list string) : value * bool * option error :=
  match fields with
  | [] => (val, true, None)
  | field :: fields' =>
      match val with
      | VNil => (VNil, false, None)
      | VMap m =>
          match m !! field with
          | Some v => nestedField v (seen ++ [field]) fields'
          | None => (VNil, false, None)
          end
      | _ =>
          (VNil, false,
           Some (accessorError (seen ++ [field]) val "map[string]interface{}"))
      end
  end.

Definition NestedFieldNoCopy (obj : gmap string value) (fields : list string)
    : value * bool * option error :=
  nestedField (VMap obj) [] fields.

Definition NestedString (obj : gmap string value) (fields : list string)
    : string * bool * option error :=
  let '(val, found, err) := NestedFieldNoCopy obj fields in
  if negb found || bool_decide (err <> None) then (EmptyString, found, err)
  else
    match val with
    | VString s => (s, true, None)
    | _ => (EmptyString, false, Some (accessorError fields val "string"))
    end.

Definition NestedSlice (obj : gmap string value) (fields : list string)
    : list value * bool * option error :=
  let '(val, found, err) := NestedFieldNoCopy obj fields in
  if negb found || bool_decide (err <> None) then ([], found, err)
  else
    match val with
    | VSlice l => (l, true, None)
    | _ => ([], false, Some (accessorError fields val "[]interface{}"))
    end.

Definition NestedMap (obj : gmap string value) (fields : list string)
    : gmap string value * bool * option error :=
  let '(val, found, err) := NestedFieldNoCopy obj fields in
  if negb found || bool_decide (err <> None) then (∅, found, err)
  else
    match val with
    | VMap m => (m, true, None)
    | _ => (∅, false, Some (accessorError fields val "map[string]interface{}"))
    end.

(** [getNestedString] *)
Definition getNestedString (obj : gmap string value) (fields : list string) : string :=
  let '(val, found, err) := NestedString obj fields in
  if negb found || bool_decide (err <> None) then EmptyString else val.

Definition GetName (u : Unstructured) : string :=
  getNestedString (Object u) ["metadata"; "name"].

Definition GetNamespace (u : Unstructured) : string :=
  getNestedString (Object u) ["metadata"; "namespace"].
End Accessors.

End unstructured.

(** ** Effects

    What the program does to the outside world, in the order it does it. *)
Inductive event : Type :=
  | EvListNamespaces
  | EvListGateways (ns : string)
  | EvGetSecret (ns name : string)
  | EvExec (stdin : list byte)
  | EvStdout (text : string).

#[global] Instance event_eq_dec : EqDecision event.
Proof. solve_decision. Defined.

(** A computation yields a value and the trace of its events. *)
Definition IO (A : Type) : Type := A * list event.

Definition ret {A : Type} (a : A) : IO A := (a, []).

Definition bind {A B : Type} (m : IO A) (k : A -> IO B) : IO B :=
  let '(a, t) := m in
  let '(b, t') := k a in
  (b, t ++ t').

Definition emit (e : event) : IO unit := (tt, [e]).

Definition trace {A : Type} (m : IO A) : list event := snd m.
Definition value_of {A : Type} (m : IO A) : A := fst m.

Notation "'let*' x ':=' m 'in' k" := (bind m (fun x => k))
  (at level 10, x pattern, m at level 100, k at level 200).
Notation "m ';;' k" := (bind m (fun _ => k))
  (at level 100, k at level 200, right associativity).

(** The text written to standard output by a trace. *)
Definition stdout_of (t : list event) : list string :=
  omap (fun e => match e with EvStdout s => Some s | _ => None end) t.

(** ** The vocabulary of the specification

    These definitions follow the words of the specification, not the code;
    the theorems below relate the two. *)

(** The [spec.servers] field of a gateway, when it is present and a list. *)
Definition spec_servers (gw : Unstructured) : option (list value) :=
  match Object gw !! "spec" with
  | Some (VMap spec) =>
      match spec !! "servers" with
      | Some (VSlice servers) => Some servers
      | _ => None
      end
  | _ => None
  end.

(** A server entry is well formed when it is a record. *)
Definition well_formed (serverObj : value) : Prop :=
  exists server, serverObj = VMap server.

(** The string at [block.field] of a server entry; [None] when it is absent
    or cannot be read as a string. *)
Definition server_string (server : gmap string value) (block field : string) : option string :=
  match server !! block with
  | Some (VMap b) =>
      match b !! field with
      | Some (VString s) => Some s
      | _ => None
      end
  | _ => None
  end.

(** The soft-skip conditions: no [tls] block, [tls.mode] absent, unreadable
    or pass-through, [tls.credentialName] absent or unreadable. *)
Definition soft_skip (server : gmap string value) : Prop :=
  server !! "tls" = None
  \/ server_string server "tls" "mode" = None
  \/ server_string server "tls" "mode" = Some "PASSTHROUGH"
  \/ server_string server "tls" "credentialName" = None.

(** The credential of a terminated server: a record whose [tls.mode] is
    present and not pass-through and whose [tls.credentialName] is present. *)
Definition terminated (serverObj : value) : option string :=
  match serverObj with
  | VMap server =>
      match server_string server "tls" "mode" with
      | Some mode =>
          if bool_decide (mode = "PASSTHROUGH") then None
          else server_string server "tls" "credentialName"
      | None => None
      end
  | _ => None
  end.

(** The text of the error of a failed fetch. *)
Definition fetch_error (credentialName namespace : string) (err : error) : error :=
  "error getting secret " +:+ credentialName +:+ " in namespace " +:+ namespace
    +:+ ": " +:+ err.

(** The line of a result record. *)
Definition result_line (secretName gatewayName namespace expiryDate : string) : string :=
  "Certificate " +:+ secretName +:+ " in gateway " +:+ gatewayName
    +:+ " in namespace " +:+ namespace +:+ " expiration date is " +:+ expiryDate +:+ nl.

(** Surrounding white space, for text that is ASCII at both ends. *)
Definition all_space (s : string) : Prop :=
  Forall (fun c => strings.asciiSpace c = true) (list_ascii_of_string s).

Definition visible (c : ascii) : Prop :=
  strings.nonASCII c = false /\ strings.asciiSpace c = false.

(** Text that neither begins nor ends with white space. *)
Definition clean (s : string) : Prop :=
  match list_ascii_of_string s with
  | [] => True
  | c :: _ => visible c
  end
  /\ match rev (list_ascii_of_string s) with
     | [] => True
     | c :: _ => visible c
     end.

(** The namespaces of a listing that are scanned: all but the two reserved
    names. *)
Definition scanned (items : list NamespaceItem) : list string :=
  filter (fun name => name <> "kube-system" /\ name <> "xcp-multicluster") (nsName <$> items).

(** The characters of base64 text: the alphabet and the padding sign. *)
Definition base64_char (b : byte) : Prop :=
  b ∈ base64.encodeStd \/ b = base64.padChar.

(** The namespaces whose gateways a trace lists, the secrets it fetches and
    the inputs it hands to [openssl], each in the order of the trace. *)
Definition listings_of (t : list event) : list string :=
  omap (fun e => match e with EvListGateways ns => Some ns | _ => None end) t.

Definition fetches_of (t : list event) : list (string * string) :=
  omap (fun e => match e with EvGetSecret ns name => Some (ns, name) | _ => None end) t.

Definition execs_of (t : list event) : list (list byte) :=
  omap (fun e => match e with EvExec stdin => Some stdin | _ => None end) t.

(** The sign that frames the words of a PEM marker. *)
Definition dash : byte := "-"%byte.

(** A payload with its line feeds and carriage returns taken out. *)
Definition without_newlines (src : list byte) : list byte :=
  filter (fun b => base64.isNewline b = false) src.

(** ** A small cluster to run the program on *)
Module Example.

Definition gateway (name namespace : string) (servers : value) : Unstructured :=
  {| Object :=
       {[ "metadata" := VMap {[ "name" := VString name; "namespace" := VString namespace ]};
          "spec" := VMap {[ "servers" := servers ]} ]} |}.

Definition serverRecord (mode credentialName : string) : gmap string value :=
  {[ "port" := VMap {[ "number" := VInt 443; "protocol" := VString "HTTPS" ]};
     "tls" := VMap {[ "mode" := VString mode;
                      "credentialName" := VString credentialName ]} ]}.

Definition server (mode credentialName : string) : value :=
  VMap (serverRecord mode credentialName).

(** A PEM text wrapped the usual way, with a line feed after every line. *)
Definition pem : list byte :=
  list_byte_of_string
    ("-----BEGIN CERTIFICATE-----" +:+ nl +:+ "QUJD" +:+ nl +:+ "REVG" +:+ nl
       +:+ "-----END CERTIFICATE-----" +:+ nl).

Definition shopCert : Secret :=
  {| Name := "shop-cert"; Namespace := "shop"; Data := {[ "tls.crt" := pem ]} |}.

Definition keyOnly : Secret :=
  {| Name := "key-only"; Namespace := "shop";
     Data := {[ "tls.key" := list_byte_of_string "QUJD" ]} |}.

(** A payload with a character that base64 does not know. *)
Definition garbled : Secret :=
  {| Name := "garbled"; Namespace := "shop";
     Data := {[ "tls.crt" := list_byte_of_string "QUJD*REVG" ]} |}.

(** The body alone, without markers and without line feeds. *)
Definition bareCert : Secret :=
  {| Name := "bare-cert"; Namespace := "shop";
     Data := {[ "tls.crt" := list_byte_of_string "QUJDREVG" ]} |}.

(** The body on two lines that end in carriage return and line feed. *)
Definition crlfCert : Secret :=
  {| Name := "crlf-cert"; Namespace := "shop";
     Data := {[ "tls.crt" :=
                  list_byte_of_string
                    ("QUJD" +:+ String "013"%char nl +:+ "REVG" +:+ String "013"%char nl) ]} |}.

Definition edge : Unstructured :=
  gateway "edge" "shop" (VSlice [server "SIMPLE" "shop-cert"]).
Definition broken : Unstructured :=
  gateway "broken" "shop" (VSlice [server "SIMPLE" "gone"]).
Definition renamed : Unstructured :=
  gateway "other" "shop" (VSlice [server "SIMPLE" "gone"]).
Definition twice : Unstructured :=
  gateway "twice" "shop"
    (VSlice [server "SIMPLE" "shop-cert"; server "PASSTHROUGH" "key-only";
             server "MUTUAL" "shop-cert"]).
Definition quiet : Unstructured :=
  gateway "edge" "shop" (VSlice [server "PASSTHROUGH" "shop-cert"]).
Definition bare : Unstructured := gateway "bare" "shop" (VSlice []).
Definition mixed : Unstructured :=
  gateway "mixed" "shop" (VSlice [server "SIMPLE" "key-only"; server "SIMPLE" "shop-cert"]).

Definition Namespaces_List : result (list NamespaceItem) :=
  Ok [ {| nsName := "kube-system" |}; {| nsName := "shop" |};
       {| nsName := "xcp-multicluster" |}; {| nsName := "down" |};
       {| nsName := "later" |} ].

Definition Gateways_List (ns : string) : result (list Unstructured) :=
  if bool_decide (ns = "shop") then Ok [broken; edge]
  else if bool_decide (ns = "later") then Ok [twice]
  else if bool_decide (ns = "down") then Err "the server is currently unable to handle the request"
  else Ok [].

Definition Secrets_Get (ns name : string) : result Secret :=
  if bool_decide (ns = "shop") && bool_decide (name = "shop-cert") then Ok shopCert
  else if bool_decide (ns = "shop") && bool_decide (name = "key-only") then Ok keyOnly
  else Err ("secrets " +:+ name +:+ " not found").

Definition openssl_enddate (stdin : list byte) : list byte * option error :=
  (list_byte_of_string ("notAfter=Jan  1 00:00:00 2030 GMT" +:+ nl), None).

Definition fmt_value (v : value) : string := unstructured.typeName v.
Definition TrimFunc (s : string) : string := s.

(** The body of [pem], as it stands between the two markers. *)
Definition pemBody : list byte := list_byte_of_string ("QUJD" +:+ nl +:+ "REVG").

(** An [openssl] that succeeds and writes the prefix and nothing else. *)
Definition openssl_blank (stdin : list byte) : list byte * option error :=
  (list_byte_of_string ("notAfter=" +:+ nl), None).

(** An [openssl] that cannot read its input. *)
Definition openssl_failing (stdin : list byte) : list byte * option error :=
  (list_byte_of_string "unable to load certificate", Some "exit status 1").

End Example.

(** ** The program *)
Section Program.

(** Library code outside the repository. *)
Variable fmt_value : value -> string.
Variable TrimFunc_IsSpace TrimRightFunc_IsSpace : string -> string.

(** The cluster and the [openssl] binary: what each call answers. *)
Variable ClientConfig : option error.
Variable kubernetes_NewForConfig : option error.
Variable dynamic_NewForConfig : option error.
Variable Namespaces_List : result (list NamespaceItem).
Variable Gateways_List : string -> result (list Unstructured).
Variable Secrets_Get : string -> string -> result Secret.
Variable openssl_enddate : list byte -> list byte * option error.

Abbreviation GetName := (unstructured.GetName fmt_value).
Abbreviation GetNamespace := (unstructured.GetNamespace fmt_value).
Abbreviation NestedSlice := (unstructured.NestedSlice fmt_value).
Abbreviation NestedMap := (unstructured.NestedMap fmt_value).
Abbreviation NestedString := (unstructured.NestedString fmt_value).
Abbreviation TrimSpace := (strings.TrimSpace TrimFunc_IsSpace TrimRightFunc_IsSpace).

Definition Printf (text : string) : IO unit := emit (EvStdout text).

(** [k8sClient]: the two clients are the handles on the cluster above, so
    only the error remains. *)
Definition k8sClient : option error :=
  match ClientConfig with
  | Some err => Some ("unable to get k8s config file: " +:+ err)
  | None =>
      match kubernetes_NewForConfig with
      | Some err => Some ("unable to create k8s client: " +:+ err)
      | None =>
          match dynamic_NewForConfig with
          | Some err => Some ("unable to create k8s dynamic client: " +:+ err)
          | None => None
          end
      end
  end.

(** The loop of [getNamespaces], appending to [nsNames]. *)
Fixpoint keepNamespaces (items : list NamespaceItem) (nsNames : list string) : list string :=
  match items with
  | [] => nsNames
  | ns :: items' =>
      if bool_decide (nsName ns <> "kube-system") && bool_decide (nsName ns <> "xcp-multicluster")
      then keepNamespaces items' (nsNames ++ [nsName ns])
      else keepNamespaces items' nsNames
  end.

Definition getNamespaces : IO (list string * option error) :=
  emit EvListNamespaces ;;
  match Namespaces_List with
  | Err err => ret ([], Some ("unable to get the list of namespaces: " +:+ err))
  | Ok items => ret (keepNamespaces items [], None)
  end.

Definition beginMarker : list byte :=
  list_byte_of_string ("-----BEGIN CERTIFICATE-----" +:+ nl).
Definition endMarker : list byte :=
  list_byte_of_string (nl +:+ "-----END CERTIFICATE-----").

(** Lines 179-180: both markers removed wherever they occur. *)
Definition stripMarkers (certData : list byte) : list byte :=
  bytes.ReplaceAll (bytes.ReplaceAll certData beginMarker []) endMarker [].

Definition analyzeCertificate (secret : Secret) : IO (string * option error) :=
  match Data secret !! "tls.crt" with
  | None => ret (EmptyString, Some "tls.crt not found in secret")
  | Some certData =>
      let certData := stripMarkers certData in
      let '(certBytes, err) := base64.DecodeString (string_of_list_byte certData) in
      match err with
      | Some err => ret (EmptyString, Some ("error decoding certificate data: " +:+ err))
      | None =>
          emit (EvExec certBytes) ;;
          let '(output, err) := openssl_enddate certBytes in
          match err with
          | Some err => ret (EmptyString, Some ("openssl error: " +:+ err))
          | None =>
              ret (TrimSpace (strings.TrimPrefix (string_of_list_byte output) "notAfter="), None)
          end
      end
  end.

(** The loop of [getGatewaySecrets] over the servers; [namespace] is
    [gw.GetNamespace()]. *)
Fixpoint serversLoop (namespace : string) (servers : list value) (secrets : list Secret)
    : IO (list Secret * option error) :=
  match servers with
  | [] => ret (secrets, None)
  | serverObj :: servers' =>
      match serverObj with
      | VMap server =>
          let '(tls, found, err) := NestedMap server ["tls"] in
          if negb found || bool_decide (err <> None)
          then serversLoop namespace servers' secrets
          else
            let '(mode, found, err) := NestedString tls ["mode"] in
            if negb found || bool_decide (err <> None) || bool_decide (mode = "PASSTHROUGH")
            then serversLoop namespace servers' secrets
            else
              let '(credentialName, found, err) := NestedString tls ["credentialName"] in
              if negb found || bool_decide (err <> None)
              then serversLoop namespace servers' secrets
              else
                emit (EvGetSecret namespace credentialName) ;;
                match Secrets_Get namespace credentialName with
                | Err err =>
                    ret ([], Some ("error getting secret " +:+ credentialName
                                     +:+ " in namespace " +:+ namespace +:+ ": " +:+ err))
                | Ok secret => serversLoop namespace servers' (secrets ++ [secret])
                end
      | _ => ret ([], Some "invalid server object found")
      end
  end.

Definition getGatewaySecrets (gw : Unstructured) : IO (list Secret * option error) :=
  let '(servers, found, err) := NestedSlice (Object gw) ["spec"; "servers"] in
  if negb found || bool_decide (err <> None)
  then ret ([], Some ("error getting gateway servers: " +:+ fmt_error err))
  else serversLoop (GetNamespace gw) servers [].

(** Lines 110-118: the loop over the secrets of one gateway. *)
Fixpoint secretsLoop (gw : Unstructured) (ns : string) (secrets : list Secret) : IO unit :=
  match secrets with
  | [] => ret tt
  | secret :: secrets' =>
      let* (expiryDate, err) := analyzeCertificate secret in
      match err with
      | Some err =>
          Printf ("error analyzing certificate for gateway " +:+ GetName gw
                    +:+ " in namespace " +:+ ns +:+ ": " +:+ err +:+ nl) ;;
          secretsLoop gw ns secrets'
      | None =>
          Printf ("Certificate " +:+ Name secret +:+ " in gateway " +:+ GetName gw
                    +:+ " in namespace " +:+ ns +:+ " expiration date is "
                    +:+ expiryDate +:+ nl) ;;
          secretsLoop gw ns secrets'
      end
  end.

(** Lines 100-120: the loop over the gateways of one namespace. *)
Fixpoint gatewaysLoop (ns : string) (items : list Unstructured) : IO unit :=
  match items with
  | [] => ret tt
  | gw :: items' =>
      let* (secrets, err) := getGatewaySecrets gw in
      match err with
      | Some err =>
          Printf ("error getting secrets for gateway in namespace " +:+ ns
                    +:+ ": " +:+ err +:+ nl) ;;
          gatewaysLoop ns items'
      | None =>
          (if 0 <? Z.of_nat (length secrets) then secretsLoop gw ns secrets else ret tt) ;;
          gatewaysLoop ns items'
      end
  end.

(** Lines 90-124: the loop over the namespaces and the final [return nil].
    The resource listed is [gateways] of [networking.istio.io/v1alpha3]. *)
Fixpoint getNsGateways (nsList : list string) : IO (option error) :=
  match nsList with
  | [] => ret None
  | ns :: nsList' =>
      emit (EvListGateways ns) ;;
      match Gateways_List ns with
      | Err err => ret (Some err)
      | Ok items =>
          let gwNum := Z.of_nat (length items) in
          (if 0 <? gwNum then gatewaysLoop ns items else ret tt) ;;
          getNsGateways nsList'
      end
  end.

Definition main : IO unit :=
  match k8sClient with
  | Some err => Printf (Sprintln2 "error creating the k8s clients:" err)
  | None =>
      let* (nsList, err) := getNamespaces in
      match err with
      | Some err => Printf (Sprintln2 "error getting the list of namespaces:" err)
      | None =>
          let* err := getNsGateways nsList in
          match err with
          | Some err => Printf (Sprintln2 "error getting resources per namespace:" err)
          | None => ret tt
          end
      end
  end.

(** [fetched_for namespace creds secrets]: the secrets are what the cluster
    holds under the credential names, one for one and in the same order. *)
Definition fetched_for (namespace : string) : list string -> list Secret -> Prop :=
  Forall2 (fun credentialName secret => Secrets_Get namespace credentialName = Ok secret).

(** What the server at which the loop stops has asked the cluster. *)
Definition last_fetch (namespace : string) (serverObj : value) : list event :=
  match terminated serverObj with
  | Some credentialName => [EvGetSecret namespace credentialName]
  | None => []
  end.

(** Why the loop stops at a server. *)
Definition stops_at (namespace : string) (serverObj : value) (err : error) : Prop :=
  (~ well_formed serverObj /\ err = "invalid server object found")
  \/ (exists credentialName e,
        terminated serverObj = Some credentialName
        /\ Secrets_Get namespace credentialName = Err e
        /\ err = fetch_error credentialName namespace e).


(** The line that the walker prints for one secret of a gateway. *)
Definition secret_line (gw : Unstructured) (ns : string) (secret : Secret) : string :=
  match value_of (analyzeCertificate secret) with
  | (_, Some err) =>
      "error analyzing certificate for gateway " +:+ GetName gw
        +:+ " in namespace " +:+ ns +:+ ": " +:+ err +:+ nl
  | (expiryDate, None) => result_line (Name secret) (GetName gw) ns expiryDate
  end.

(** * Properties *)

(** Forget the parts of the cluster that a statement does not mention, so
    that automation cannot pick them up. *)
Ltac closed := repeat match goal with x : _ |- _ => clear x end.

(** ** Traces *)

Lemma IO_eq {A : Type} (m : IO A) : m = (value_of m, trace m).
Proof. by destruct m. Qed.

Lemma bind_emit {B : Type} (e : event) (k : unit -> IO B) :
  bind (emit e) k = (value_of (k tt), e :: trace (k tt)).
Proof. unfold bind, emit. by destruct (k tt). Qed.

Lemma stdout_of_app (t1 t2 : list event) :
  stdout_of (t1 ++ t2) = stdout_of t1 ++ stdout_of t2.
Proof. apply omap_app. Qed.

(** ** The accessors against the vocabulary of the specification *)

Lemma NestedSlice_servers (gw : Unstructured) :
  match spec_servers gw with
  | Some servers => NestedSlice (Object gw) ["spec"; "servers"] = (servers, true, None)
  | None =>
      exists found err,
        NestedSlice (Object gw) ["spec"; "servers"] = ([], found, err)
        /\ (found = false \/ err <> None)
  end.
Proof.
  unfold spec_servers, unstructured.NestedSlice, unstructured.NestedFieldNoCopy.
  cbn [unstructured.nestedField].
  destruct (Object gw !! "spec") as [[| | | | | |spec]|] eqn:Hspec; cbn;
    try (eexists _, _; split; [reflexivity | by left]).
  destruct (spec !! "servers") as [[]|] eqn:Hservers; cbn;
    try (eexists _, _; split; [reflexivity | by left]).
  reflexivity.
Qed.

Lemma NestedMap_block (server : gmap string value) (block : string) :
  NestedMap server [block] =
    match server !! block with
    | Some (VMap b) => (b, true, None)
    | Some v =>
        (∅, false,
         Some (unstructured.accessorError fmt_value [block] v "map[string]interface{}"))
    | None => (∅, false, None)
    end.
Proof.
  unfold unstructured.NestedMap, unstructured.NestedFieldNoCopy.
  cbn [unstructured.nestedField].
  by destruct (server !! block) as [[]|].
Qed.

Lemma NestedString_field (b : gmap string value) (field : string) :
  NestedString b [field] =
    match b !! field with
    | Some (VString s) => (s, true, None)
    | Some v =>
        (EmptyString, false,
         Some (unstructured.accessorError fmt_value [field] v "string"))
    | None => (EmptyString, false, None)
    end.
Proof.
  unfold unstructured.NestedString, unstructured.NestedFieldNoCopy.
  cbn [unstructured.nestedField].
  by destruct (b !! field) as [[]|].
Qed.

Lemma soft_skip_terminated (server : gmap string value) :
  soft_skip server <-> terminated (VMap server) = None.
Proof.
  closed. unfold soft_skip, terminated, server_string.
  destruct (server !! "tls") as [[| | | | | |t]|]; try tauto.
  destruct (t !! "mode") as [[| | | |mode| |]|]; try tauto.
  case_bool_decide as Hmode.
  - subst mode. tauto.
  - destruct (t !! "credentialName") as [[]|]; split; intros H;
      try done; try tauto; destruct H as [H|[H|[H|H]]]; congruence.
Qed.

(** ** The secret extractor *)

(** One turn of the loop on a record, by the policy of the server. *)
Lemma serversLoop_record (namespace : string) (server : gmap string value)
    (servers : list value) (secrets : list Secret) :
  serversLoop namespace (VMap server :: servers) secrets =
    match terminated (VMap server) with
    | None => serversLoop namespace servers secrets
    | Some credentialName =>
        emit (EvGetSecret namespace credentialName) ;;
        match Secrets_Get namespace credentialName with
        | Err err => ret ([], Some (fetch_error credentialName namespace err))
        | Ok secret => serversLoop namespace servers (secrets ++ [secret])
        end
    end.
Proof.
  cbn [serversLoop]. rewrite NestedMap_block.
  unfold terminated, server_string.
  destruct (server !! "tls") as [[| | | | | |t]|]; try reflexivity.
  cbn [negb orb]. rewrite bool_decide_eq_false_2 by (intros H; by apply H).
  rewrite NestedString_field.
  destruct (t !! "mode") as [[| | | |mode| |]|]; try reflexivity.
  cbn [negb orb]. rewrite bool_decide_eq_false_2 by (intros H; by apply H).
  cbn [orb]. case_bool_decide; [reflexivity|].
  rewrite NestedString_field.
  destruct (t !! "credentialName") as [[]|]; try reflexivity.
Qed.

Lemma serversLoop_malformed (namespace : string) (serverObj : value)
    (servers : list value) (secrets : list Secret) :
  ~ well_formed serverObj ->
  serversLoop namespace (serverObj :: servers) secrets =
    ret ([], Some "invalid server object found").
Proof.
  intros Hwf. destruct serverObj; try reflexivity.
  destruct Hwf. by eexists.
Qed.

(** C4: a well-formed server entry under a soft-skip condition (no [tls]
    block; [tls.mode] absent, unreadable or [PASSTHROUGH];
    [tls.credentialName] absent or unreadable) adds nothing to the
    extraction: no secret is fetched for it, no error is raised, and the
    loop goes on with the remaining servers and the same accumulated
    secrets. *)
Theorem soft_skip_fetches_nothing (namespace : string) (server : gmap string value)
    (servers : list value) (secrets : list Secret) :
  soft_skip server ->
  serversLoop namespace (VMap server :: servers) secrets
    = serversLoop namespace servers secrets
  /\ serversLoop namespace [VMap server] secrets = ((secrets, None), []).
Proof.
  intros Hskip%soft_skip_terminated.
  split; rewrite serversLoop_record, Hskip; reflexivity.
Qed.

(** The loop either walks the whole list, fetching the secret of every
    terminated server in order, or stops at the first server that is not a
    record or whose secret cannot be fetched. *)
Lemma serversLoop_cases (namespace : string) (servers : list value) (secrets : list Secret) :
  (exists fetched,
      Forall well_formed servers
      /\ fetched_for namespace (omap terminated servers) fetched
      /\ serversLoop namespace servers secrets
         = ((secrets ++ fetched, None),
            EvGetSecret namespace <$> omap terminated servers))
  \/ (exists before serverObj after fetched err,
        servers = before ++ serverObj :: after
        /\ Forall well_formed before
        /\ fetched_for namespace (omap terminated before) fetched
        /\ stops_at namespace serverObj err
        /\ serversLoop namespace servers secrets
           = (([], Some err),
              (EvGetSecret namespace <$> omap terminated before)
                ++ last_fetch namespace serverObj)).
Proof.
  revert secrets. induction servers as [|serverObj servers IH]; intros secrets.
  { left. exists []. repeat split; [constructor | constructor |].
    cbn. by rewrite app_nil_r. }
  assert (Hbad : ~ well_formed serverObj ->
    exists before serverObj0 after fetched err,
      serverObj :: servers = before ++ serverObj0 :: after
      /\ Forall well_formed before
      /\ fetched_for namespace (omap terminated before) fetched
      /\ stops_at namespace serverObj0 err
      /\ serversLoop namespace (serverObj :: servers) secrets
         = (([], Some err),
            (EvGetSecret namespace <$> omap terminated before)
              ++ last_fetch namespace serverObj0)).
  { intros Hwf. exists [], serverObj, servers, [], "invalid server object found".
    repeat split; [constructor | constructor | by left |].
    rewrite serversLoop_malformed by done.
    unfold last_fetch. destruct serverObj; try reflexivity.
    destruct Hwf. by eexists. }
  destruct serverObj as [| | | | | |server];
    try (right; apply Hbad; intros [? ?]; discriminate).
  clear Hbad. rewrite serversLoop_record.
  destruct (terminated (VMap server)) as [credentialName|] eqn:Hterm.
  - rewrite bind_emit.
    destruct (Secrets_Get namespace credentialName) as [secret|e] eqn:Hget.
    + destruct (IH (secrets ++ [secret]))
        as [(fetched & Hwf & Hfetched & Hloop)
           |(before & s & after & fetched & err & -> & Hwf & Hfetched & Hstop & Hloop)].
      * left. exists (secret :: fetched). split; [|split].
        -- constructor; [by eexists | done].
        -- cbn [omap list_omap]. rewrite Hterm. by constructor.
        -- rewrite Hloop. cbn [omap list_omap value_of trace fst snd]. rewrite Hterm.
           by rewrite <- app_assoc.
      * right. exists (VMap server :: before), s, after, (secret :: fetched), err.
        split; [done|]. split; [constructor; [by eexists | done]|].
        split; [cbn [omap list_omap]; rewrite Hterm; by constructor|].
        split; [done|].
        rewrite Hloop. cbn [omap list_omap value_of trace fst snd]. by rewrite Hterm.
    + right. exists [], (VMap server), servers, [], (fetch_error credentialName namespace e).
      repeat split; [constructor | constructor | | ].
      * right. by exists credentialName, e.
      * unfold last_fetch. by rewrite Hterm.
  - destruct (IH secrets)
      as [(fetched & Hwf & Hfetched & Hloop)
         |(before & s & after & fetched & err & -> & Hwf & Hfetched & Hstop & Hloop)].
    + left. exists fetched. split; [|split].
      * constructor; [by eexists | done].
      * cbn [omap list_omap]. by rewrite Hterm.
      * rewrite Hloop. cbn [omap list_omap]. by rewrite Hterm.
    + right. exists (VMap server :: before), s, after, fetched, err.
      split; [done|]. split; [constructor; [by eexists | done]|].
      split; [cbn [omap list_omap]; by rewrite Hterm|].
      split; [done|].
      rewrite Hloop. cbn [omap list_omap]. by rewrite Hterm.
Qed.



(** What [getGatewaySecrets] does, by the shape of [spec.servers]. *)
Lemma getGatewaySecrets_servers (gw : Unstructured) :
  match spec_servers gw with
  | Some servers => getGatewaySecrets gw = serversLoop (GetNamespace gw) servers []
  | None =>
      exists cause,
        getGatewaySecrets gw = (([], Some ("error getting gateway servers: " +:+ cause)), [])
  end.
Proof.
  unfold getGatewaySecrets. pose proof (NestedSlice_servers gw) as H.
  destruct (spec_servers gw) as [servers|].
  - by rewrite H.
  - destruct H as (found & err & -> & Hfail). exists (fmt_error err).
    destruct Hfail as [->|Herr]; [reflexivity|].
    rewrite (bool_decide_eq_true_2 _ Herr). by rewrite orb_true_r.
Qed.


(** A successful extraction has fetched the secrets of the terminated
    servers, one for one and in the order of the servers. *)
Lemma getGatewaySecrets_ok (gw : Unstructured) (secrets : list Secret) :
  value_of (getGatewaySecrets gw) = (secrets, None) ->
  exists servers,
    spec_servers gw = Some servers
    /\ Forall well_formed servers
    /\ fetched_for (GetNamespace gw) (omap terminated servers) secrets
    /\ trace (getGatewaySecrets gw)
       = EvGetSecret (GetNamespace gw) <$> omap terminated servers.
Proof.
  intros Hok. pose proof (getGatewaySecrets_servers gw) as Hgw.
  destruct (spec_servers gw) as [servers|].
  - rewrite Hgw in Hok |- *. exists servers.
    destruct (serversLoop_cases (GetNamespace gw) servers [])
      as [(fetched & Hwf & Hfetched & Hloop)
         |(before & s & after & fetched & err & _ & _ & _ & _ & Hloop)];
      rewrite Hloop in Hok |- *; cbn [value_of trace fst snd] in *.
    + injection Hok as <-. done.
    + discriminate.
  - destruct Hgw as [cause Hgw]. rewrite Hgw in Hok. discriminate.
Qed.

(** C9: when the extraction of a gateway succeeds, the returned list holds
    the fetched secrets of the terminated servers in the order of the
    server list; nothing is deduplicated, so a credential named by two
    servers yields its secret at both positions. *)
Theorem extraction_order (gw : Unstructured) (secrets : list Secret) :
  value_of (getGatewaySecrets gw) = (secrets, None) ->
  exists servers,
    spec_servers gw = Some servers
    /\ fetched_for (GetNamespace gw) (omap terminated servers) secrets
    /\ length secrets = length (omap terminated servers)
    /\ (forall (i j : nat) (credentialName : string),
          i <> j ->
          omap terminated servers !! i = Some credentialName ->
          omap terminated servers !! j = Some credentialName ->
          exists secret,
            Secrets_Get (GetNamespace gw) credentialName = Ok secret
            /\ secrets !! i = Some secret /\ secrets !! j = Some secret).
Proof.
  intros (servers & Hservers & _ & Hfetched & _)%getGatewaySecrets_ok.
  exists servers. split; [done|]. split; [done|]. split.
  - symmetry. eapply Forall2_length, Hfetched.
  - intros i j credentialName _ Hi Hj.
    destruct (Forall2_lookup_l _ _ _ _ _ Hfetched Hi) as (secret & Hsi & Hget).
    destruct (Forall2_lookup_l _ _ _ _ _ Hfetched Hj) as (secret' & Hsj & Hget').
    exists secret. split; [done|]. split; [done|]. congruence.
Qed.

(** ** The walker *)

Lemma analyzeCertificate_silent (secret : Secret) :
  stdout_of (trace (analyzeCertificate secret)) = [].
Proof.
  unfold analyzeCertificate.
  destruct (Data secret !! "tls.crt") as [certData|]; [|reflexivity].
  destruct (base64.DecodeString _) as [certBytes [err|]]; [reflexivity|].
  rewrite bind_emit.
  by destruct (openssl_enddate certBytes) as [output [err|]].
Qed.

(** The line that the loop over the secrets prints for one secret. *)
Lemma secretsLoop_cons (gw : Unstructured) (ns : string) (secret : Secret)
    (secrets : list Secret) :
  secretsLoop gw ns (secret :: secrets) =
    (tt,
     trace (analyzeCertificate secret)
       ++ EvStdout
            match value_of (analyzeCertificate secret) with
            | (_, Some err) =>
                "error analyzing certificate for gateway " +:+ GetName gw
                  +:+ " in namespace " +:+ ns +:+ ": " +:+ err +:+ nl
            | (expiryDate, None) => result_line (Name secret) (GetName gw) ns expiryDate
            end
       :: trace (secretsLoop gw ns secrets)).
Proof.
  cbn [secretsLoop].
  destruct (analyzeCertificate secret) as [[expiryDate [err|]] t];
    destruct (secretsLoop gw ns secrets) as [[] t']; reflexivity.
Qed.

Lemma secretsLoop_guard (gw : Unstructured) (ns : string) (secrets : list Secret) :
  (if 0 <? Z.of_nat (length secrets) then secretsLoop gw ns secrets else ret tt)
    = secretsLoop gw ns secrets.
Proof. by destruct secrets. Qed.

Lemma gatewaysLoop_guard (ns : string) (items : list Unstructured) :
  (if 0 <? Z.of_nat (length items) then gatewaysLoop ns items else ret tt)
    = gatewaysLoop ns items.
Proof. by destruct items. Qed.

(** C3: a failure to analyze one secret is not fatal and concerns that
    secret only: the loop prints one diagnostic with the gateway, the
    namespace and the cause, prints no result line for the secret, and goes
    on with the remaining secrets of the gateway.  A secret without the key
    [tls.crt] is such a failure, and its message names the key. *)
Theorem secret_failure_nonfatal (gw : Unstructured) (ns : string) (secret : Secret)
    (secrets : list Secret) :
  (forall err,
     snd (value_of (analyzeCertificate secret)) = Some err ->
     secretsLoop gw ns (secret :: secrets)
       = (tt,
          trace (analyzeCertificate secret)
            ++ EvStdout ("error analyzing certificate for gateway " +:+ GetName gw
                           +:+ " in namespace " +:+ ns +:+ ": " +:+ err +:+ nl)
            :: trace (secretsLoop gw ns secrets))
     /\ stdout_of (trace (secretsLoop gw ns (secret :: secrets)))
        = ("error analyzing certificate for gateway " +:+ GetName gw
             +:+ " in namespace " +:+ ns +:+ ": " +:+ err +:+ nl)
            :: stdout_of (trace (secretsLoop gw ns secrets)))
  /\ (Data secret !! "tls.crt" = None ->
      analyzeCertificate secret = ((EmptyString, Some "tls.crt not found in secret"), [])).
Proof.
  split.
  - intros err Herr.
    assert (Hloop : secretsLoop gw ns (secret :: secrets)
       = (tt,
          trace (analyzeCertificate secret)
            ++ EvStdout ("error analyzing certificate for gateway " +:+ GetName gw
                           +:+ " in namespace " +:+ ns +:+ ": " +:+ err +:+ nl)
            :: trace (secretsLoop gw ns secrets))).
    { rewrite secretsLoop_cons.
      destruct (value_of (analyzeCertificate secret)) as [expiryDate o].
      cbn in Herr. by subst o. }
    split; [exact Hloop|].
    rewrite Hloop. cbn [trace snd].
    by rewrite stdout_of_app, analyzeCertificate_silent.
  - intros Hmissing. unfold analyzeCertificate. by rewrite Hmissing.
Qed.

(** What the loop over the gateways does for one gateway. *)
Lemma gatewaysLoop_cons (ns : string) (gw : Unstructured) (items : list Unstructured) :
  gatewaysLoop ns (gw :: items) =
    (tt,
     trace (getGatewaySecrets gw)
       ++ match value_of (getGatewaySecrets gw) with
          | (_, Some err) =>
              [EvStdout ("error getting secrets for gateway in namespace " +:+ ns
                           +:+ ": " +:+ err +:+ nl)]
          | (secrets, None) => trace (secretsLoop gw ns secrets)
          end
       ++ trace (gatewaysLoop ns items)).
Proof.
  cbn [gatewaysLoop].
  destruct (getGatewaySecrets gw) as [[secrets [err|]] t];
    cbn [bind value_of trace fst snd]; [|rewrite secretsLoop_guard];
    destruct (gatewaysLoop ns items) as [[] t'].
  - reflexivity.
  - destruct (secretsLoop gw ns secrets) as [[] t'']. reflexivity.
Qed.

(** A gateway whose extraction fails costs one diagnostic; the loop then
    goes on with the next gateway of the namespace. *)
Lemma gateway_failure_nonfatal (ns : string) (gw : Unstructured) (items : list Unstructured)
    (err : error) :
  snd (value_of (getGatewaySecrets gw)) = Some err ->
  gatewaysLoop ns (gw :: items) =
    (tt,
     trace (getGatewaySecrets gw)
       ++ EvStdout ("error getting secrets for gateway in namespace " +:+ ns
                      +:+ ": " +:+ err +:+ nl)
       :: trace (gatewaysLoop ns items)).
Proof.
  intros Herr. rewrite gatewaysLoop_cons.
  destruct (value_of (getGatewaySecrets gw)) as [secrets o].
  cbn in Herr. by subst o.
Qed.

(** What the loop over the namespaces does for one namespace. *)
Lemma getNsGateways_cons (ns : string) (nsList : list string) :
  getNsGateways (ns :: nsList) =
    match Gateways_List ns with
    | Err err => (Some err, [EvListGateways ns])
    | Ok items =>
        (value_of (getNsGateways nsList),
         EvListGateways ns :: trace (gatewaysLoop ns items) ++ trace (getNsGateways nsList))
    end.
Proof.
  cbn [getNsGateways]. rewrite bind_emit.
  destruct (Gateways_List ns) as [items|err]; [|reflexivity].
  rewrite gatewaysLoop_guard.
  destruct (gatewaysLoop ns items) as [[] t], (getNsGateways nsList) as [o t'].
  reflexivity.
Qed.

(** As long as the listings succeed the walk goes on. *)
Lemma getNsGateways_app (reached nsList : list string) :
  Forall (fun ns => exists items, Gateways_List ns = Ok items) reached ->
  getNsGateways (reached ++ nsList) =
    (value_of (getNsGateways nsList),
     trace (getNsGateways reached) ++ trace (getNsGateways nsList))
  /\ value_of (getNsGateways reached) = None.
Proof.
  induction 1 as [|ns reached [items Hitems] _ [IH IHv]].
  - split; [apply IO_eq | reflexivity].
  - cbn [app]. rewrite !getNsGateways_cons, Hitems, IH, IHv.
    cbn [value_of trace fst snd]. split; [|reflexivity].
    f_equal. by rewrite <- app_comm_cons, app_assoc.
Qed.

(** C2: when the listing of the gateways of a namespace fails, the scan
    stops there.  [reached] are the namespaces before the failing one, [ns]
    the failing one, [unreached] those after it.  [getNsGateways] returns
    the error with the trace of the namespaces reached and the failed
    listing only, and [main] prints the error once: no result line and no
    diagnostic is printed for [ns] or for a namespace of [unreached]. *)
Theorem listing_failure_aborts (reached unreached : list string) (ns : string) (err : error)
    (items : list NamespaceItem) :
  Forall (fun ns' => exists gws, Gateways_List ns' = Ok gws) reached ->
  Gateways_List ns = Err err ->
  getNsGateways (reached ++ ns :: unreached)
    = (Some err, trace (getNsGateways reached) ++ [EvListGateways ns])
  /\ (k8sClient = None ->
      Namespaces_List = Ok items ->
      keepNamespaces items [] = reached ++ ns :: unreached ->
      main = (tt,
              EvListNamespaces
                :: trace (getNsGateways reached)
                ++ [EvListGateways ns;
                    EvStdout (Sprintln2 "error getting resources per namespace:" err)])).
Proof.
  intros Hreached Hfail.
  assert (Hscan : getNsGateways (reached ++ ns :: unreached)
                  = (Some err, trace (getNsGateways reached) ++ [EvListGateways ns])).
  { destruct (getNsGateways_app reached (ns :: unreached) Hreached) as [-> _].
    by rewrite getNsGateways_cons, Hfail. }
  split; [exact Hscan|].
  intros Hclient Hlist Hkept. unfold main, getNamespaces.
  rewrite Hclient, Hlist, Hkept. cbn [bind emit ret app]. rewrite Hscan.
  unfold Printf, emit, bind. by rewrite <- app_assoc.
Qed.

(** ** Where a printed line comes from *)

Lemma terminated_inv (serverObj : value) (credentialName : string) :
  terminated serverObj = Some credentialName ->
  exists server mode,
    serverObj = VMap server
    /\ server_string server "tls" "mode" = Some mode
    /\ mode <> "PASSTHROUGH"
    /\ server_string server "tls" "credentialName" = Some credentialName.
Proof.
  destruct serverObj as [| | | | | |server]; try discriminate. cbn [terminated].
  destruct (server_string server "tls" "mode") as [mode|] eqn:Hmode; [|discriminate].
  case_bool_decide; [discriminate|]. intros Hcred. exists server, mode. split_and!; done.
Qed.

Lemma fetches_silent (namespace : string) (credentialNames : list string) :
  stdout_of (EvGetSecret namespace <$> credentialNames) = [].
Proof. induction credentialNames as [|c l IH]; [reflexivity | exact IH]. Qed.

Lemma getGatewaySecrets_silent (gw : Unstructured) :
  stdout_of (trace (getGatewaySecrets gw)) = [].
Proof.
  pose proof (getGatewaySecrets_servers gw) as Hgw.
  destruct (spec_servers gw) as [servers|].
  - rewrite Hgw.
    destruct (serversLoop_cases (GetNamespace gw) servers [])
      as [(fetched & _ & _ & ->)|(before & s & after & fetched & err & _ & _ & _ & _ & ->)];
      cbn [trace snd].
    + apply fetches_silent.
    + rewrite stdout_of_app, fetches_silent. unfold last_fetch.
      by destruct (terminated s).
  - by destruct Hgw as [cause ->].
Qed.

Lemma secretsLoop_lines (gw : Unstructured) (ns : string) (secrets : list Secret)
    (line : string) :
  line ∈ stdout_of (trace (secretsLoop gw ns secrets)) ->
  exists secret,
    secret ∈ secrets
    /\ ((exists err,
           snd (value_of (analyzeCertificate secret)) = Some err
           /\ line = "error analyzing certificate for gateway " +:+ GetName gw
                       +:+ " in namespace " +:+ ns +:+ ": " +:+ err +:+ nl)
        \/ (exists expiryDate,
              value_of (analyzeCertificate secret) = (expiryDate, None)
              /\ line = result_line (Name secret) (GetName gw) ns expiryDate)).
Proof.
  induction secrets as [|secret secrets IH].
  - intros Hin. cbn in Hin. by apply elem_of_nil in Hin.
  - rewrite secretsLoop_cons. cbn [trace snd].
    rewrite stdout_of_app, analyzeCertificate_silent. cbn [app stdout_of omap list_omap].
    intros [->|Hin]%elem_of_cons.
    + exists secret. split; [left|].
      destruct (value_of (analyzeCertificate secret)) as [expiryDate [err|]]; eauto.
    + destruct (IH Hin) as (secret' & Hin' & Hline). exists secret'.
      split; [by right | done].
Qed.

Lemma gatewaysLoop_lines (ns : string) (items : list Unstructured) (line : string) :
  line ∈ stdout_of (trace (gatewaysLoop ns items)) ->
  exists gw,
    gw ∈ items
    /\ ((exists err,
           snd (value_of (getGatewaySecrets gw)) = Some err
           /\ line = "error getting secrets for gateway in namespace " +:+ ns
                       +:+ ": " +:+ err +:+ nl)
        \/ (exists secrets,
              value_of (getGatewaySecrets gw) = (secrets, None)
              /\ line ∈ stdout_of (trace (secretsLoop gw ns secrets)))).
Proof.
  induction items as [|gw items IH].
  - intros Hin. cbn in Hin. by apply elem_of_nil in Hin.
  - rewrite gatewaysLoop_cons. cbn [trace snd].
    rewrite !stdout_of_app, getGatewaySecrets_silent. cbn [app].
    intros [Hin|Hin]%elem_of_app.
    + exists gw. split; [left|].
      destruct (value_of (getGatewaySecrets gw)) as [secrets [err|]].
      * apply list_elem_of_singleton in Hin. eauto.
      * eauto.
    + destruct (IH Hin) as (gw' & Hin' & Hline). exists gw'.
      split; [by right | done].
Qed.

Lemma getNsGateways_lines (nsList : list string) (line : string) :
  line ∈ stdout_of (trace (getNsGateways nsList)) ->
  exists ns items,
    ns ∈ nsList /\ Gateways_List ns = Ok items
    /\ line ∈ stdout_of (trace (gatewaysLoop ns items)).
Proof.
  induction nsList as [|ns nsList IH].
  - intros Hin. cbn in Hin. by apply elem_of_nil in Hin.
  - rewrite getNsGateways_cons.
    destruct (Gateways_List ns) as [items|err] eqn:Hlist; cbn [trace snd].
    + cbn [stdout_of omap list_omap]. fold (stdout_of). rewrite stdout_of_app.
      intros [Hin|Hin]%elem_of_app.
      * exists ns, items. split; [left | done].
      * destruct (IH Hin) as (ns' & items' & Hin' & Hline). exists ns', items'.
        split; [by right | done].
    + intros Hin. cbn in Hin. by apply elem_of_nil in Hin.
Qed.

(** C5: every result line of a scan names a namespace of the scan and a
    gateway that the listing of that namespace returned, and stems from a
    server of that gateway that is terminated: its mode is not pass-through
    and it names the credential whose secret the line reports. *)
Theorem result_lines_sound (nsList : list string) (line : string) :
  line ∈ stdout_of (trace (getNsGateways nsList)) ->
  strings.HasPrefix line "Certificate " = true ->
  exists ns items gw servers server mode credentialName secret expiryDate,
    ns ∈ nsList
    /\ Gateways_List ns = Ok items
    /\ gw ∈ items
    /\ spec_servers gw = Some servers
    /\ VMap server ∈ servers
    /\ server_string server "tls" "mode" = Some mode
    /\ mode <> "PASSTHROUGH"
    /\ server_string server "tls" "credentialName" = Some credentialName
    /\ Secrets_Get (GetNamespace gw) credentialName = Ok secret
    /\ value_of (analyzeCertificate secret) = (expiryDate, None)
    /\ line = result_line (Name secret) (GetName gw) ns expiryDate.
Proof.
  intros (ns & items & Hns & Hlist & Hin)%getNsGateways_lines Hprefix.
  apply gatewaysLoop_lines in Hin
    as (gw & Hgw & [(err & _ & ->)|(secrets & Hsecrets & Hin)]); [discriminate|].
  apply secretsLoop_lines in Hin
    as (secret & Hsecret & [(err & _ & ->)|(expiryDate & Hexpiry & ->)]); [discriminate|].
  apply getGatewaySecrets_ok in Hsecrets as (servers & Hservers & _ & Hfetched & _).
  apply list_elem_of_lookup in Hsecret as [i Hi].
  destruct (Forall2_lookup_r _ _ _ _ _ Hfetched Hi) as (credentialName & Hcred & Hget).
  apply list_elem_of_lookup_2, list_elem_of_omap in Hcred as (serverObj & Hserver & Hterm).
  apply terminated_inv in Hterm as (server & mode & -> & Hmode & Hpass & Hname).
  exists ns, items, gw, servers, server, mode, credentialName, secret, expiryDate.
  split_and!; done.
Qed.

(** ** The namespaces *)

Lemma keepNamespaces_scanned (items : list NamespaceItem) (nsNames : list string) :
  keepNamespaces items nsNames = nsNames ++ scanned items.
Proof.
  revert nsNames. induction items as [|ns items IH]; intros nsNames.
  - cbn. by rewrite app_nil_r.
  - cbn [keepNamespaces]. unfold scanned. rewrite fmap_cons, filter_cons.
    fold (scanned items).
    rewrite !IH.
    repeat case_bool_decide; case_decide; cbn [andb]; try tauto.
    by rewrite <- app_assoc.
Qed.

(** C8: after a successful listing the namespaces handed to the scan are
    the listed ones without [kube-system] and [xcp-multicluster], in the
    order of the listing; every other namespace is kept.  Nothing but the
    listing enters: the two names are fixed. *)
Theorem reserved_namespaces_excluded (items : list NamespaceItem) :
  Namespaces_List = Ok items ->
  getNamespaces = ((scanned items, None), [EvListNamespaces])
  /\ (forall name,
        name ∈ scanned items
        <-> name ∈ (nsName <$> items)
            /\ name <> "kube-system" /\ name <> "xcp-multicluster")
  /\ (k8sClient = None ->
      main = (emit EvListNamespaces ;;
              let* err := getNsGateways (scanned items) in
              match err with
              | Some err => Printf (Sprintln2 "error getting resources per namespace:" err)
              | None => ret tt
              end)).
Proof.
  intros Hlist.
  assert (Hget : getNamespaces = ((scanned items, None), [EvListNamespaces])).
  { unfold getNamespaces. rewrite Hlist, keepNamespaces_scanned. reflexivity. }
  split; [exact Hget|]. split.
  - intros name. unfold scanned. rewrite list_elem_of_filter. tauto.
  - intros Hclient. unfold main. rewrite Hclient, Hget. reflexivity.
Qed.

(** ** Package [strings] *)

Lemma append_cons (c : ascii) (s1 s2 : string) :
  String c s1 +:+ s2 = String c (s1 +:+ s2).
Proof. reflexivity. Qed.

Lemma TrimPrefix_app (prefix s : string) :
  strings.TrimPrefix (prefix +:+ s) prefix = s.
Proof.
  unfold strings.TrimPrefix, strings.HasPrefix.
  assert (H : String.prefix prefix (prefix +:+ s) = true
              /\ strings.drop (String.length prefix) (prefix +:+ s) = s).
  { induction prefix as [|c prefix [IHp IHd]].
    - split; [by destruct s | reflexivity].
    - rewrite append_cons. cbn. by destruct (ascii_dec c c). }
  destruct H as [-> ->]. reflexivity.
Qed.

Lemma list_ascii_of_string_app (s1 s2 : string) :
  list_ascii_of_string (s1 +:+ s2) = list_ascii_of_string s1 ++ list_ascii_of_string s2.
Proof. induction s1 as [|c s1 IH]; [done|]. rewrite append_cons. cbn. by rewrite IH. Qed.

Lemma asciiSpace_ASCII (c : ascii) :
  strings.asciiSpace c = true -> strings.nonASCII c = false.
Proof.
  destruct c as [b0 b1 b2 b3 b4 b5 b6 b7].
  destruct b0, b1, b2, b3, b4, b5, b6, b7; vm_compute; congruence.
Qed.

Lemma trimStop_spaces (spaces r : list ascii) :
  Forall (fun c => strings.asciiSpace c = true) spaces ->
  strings.trimStop (spaces ++ r) = strings.trimStop r.
Proof.
  induction 1 as [|c spaces Hc _ IH]; [done|].
  cbn. by rewrite (asciiSpace_ASCII _ Hc), Hc.
Qed.

Lemma TrimSpace_spaces (s : string) :
  all_space s -> TrimSpace s = EmptyString.
Proof.
  unfold all_space. induction s as [|c s IH]; [done|].
  cbn. intros [Hc Hs]%Forall_cons. by rewrite (asciiSpace_ASCII _ Hc), Hc, IH.
Qed.

(** On text with [clean] content between runs of ASCII white space,
    [TrimSpace] returns the content. *)
Lemma TrimSpace_clean (before text after : string) :
  all_space before -> clean text -> all_space after ->
  TrimSpace (before +:+ text +:+ after) = text.
Proof.
  intros Hbefore [Hfirst Hlast] Hafter.
  induction before as [|c before IH].
  - change (EmptyString +:+ text +:+ after) with (text +:+ after).
    destruct text as [|c text].
    { by apply TrimSpace_spaces. }
    cbn [list_ascii_of_string] in Hfirst. destruct Hfirst as [Hascii Hvisible].
    rewrite append_cons.
    cbn [strings.TrimSpace]. rewrite Hascii, Hvisible.
    rewrite <- append_cons.
    rewrite list_ascii_of_string_app, rev_app_distr, trimStop_spaces
      by (by apply Forall_rev).
    destruct (rev (list_ascii_of_string (String c text))) as [|d r] eqn:Hrev.
    { apply (f_equal (@length ascii)) in Hrev. rewrite length_rev in Hrev. done. }
    destruct Hlast as [Hascii' Hvisible'].
    cbn [strings.trimStop]. rewrite Hascii', Hvisible', <- Hrev, rev_involutive.
    apply string_of_list_ascii_of_string.
  - unfold all_space in Hbefore. cbn in Hbefore.
    apply Forall_cons in Hbefore as [Hc Hbefore].
    rewrite append_cons.
    cbn [strings.TrimSpace]. rewrite (asciiSpace_ASCII _ Hc), Hc. by apply IH.
Qed.

(** ** The certificate pipeline *)

(** A successful analysis, step by step. *)
Lemma analyzeCertificate_ok (secret : Secret) (expiryDate : string) :
  value_of (analyzeCertificate secret) = (expiryDate, None) ->
  exists certData certBytes output,
    Data secret !! "tls.crt" = Some certData
    /\ base64.DecodeString (string_of_list_byte (stripMarkers certData)) = (certBytes, None)
    /\ openssl_enddate certBytes = (output, None)
    /\ expiryDate = TrimSpace (strings.TrimPrefix (string_of_list_byte output) "notAfter=")
    /\ trace (analyzeCertificate secret) = [EvExec certBytes].
Proof.
  unfold analyzeCertificate.
  destruct (Data secret !! "tls.crt") as [certData|]; [|discriminate].
  destruct (base64.DecodeString _) as [certBytes [err|]] eqn:Hdecode; [discriminate|].
  rewrite bind_emit.
  destruct (openssl_enddate certBytes) as [output [err|]] eqn:Hopenssl; [discriminate|].
  cbn [value_of trace ret fst snd]. intros [= <-].
  exists certData, certBytes, output. split_and!; done.
Qed.

(** C7: when the analysis of a secret succeeds, the expiration string is
    the output of [openssl] with the prefix [notAfter=] removed and the
    surrounding white space trimmed, and the line printed for the secret is
    [Certificate <secretName> in gateway <gatewayName> in namespace
    <namespace> expiration date is <expiryDate>]. *)
Theorem expiration_line (gw : Unstructured) (ns : string) (secret : Secret)
    (secrets : list Secret) (expiryDate : string) :
  value_of (analyzeCertificate secret) = (expiryDate, None) ->
  exists certData certBytes output,
    Data secret !! "tls.crt" = Some certData
    /\ base64.DecodeString (string_of_list_byte (stripMarkers certData)) = (certBytes, None)
    /\ openssl_enddate certBytes = (output, None)
    /\ expiryDate = TrimSpace (strings.TrimPrefix (string_of_list_byte output) "notAfter=")
    /\ (forall before date after,
          string_of_list_byte output = "notAfter=" +:+ before +:+ date +:+ after ->
          all_space before -> clean date -> all_space after ->
          expiryDate = date)
    /\ stdout_of (trace (secretsLoop gw ns (secret :: secrets)))
       = ("Certificate " +:+ Name secret +:+ " in gateway " +:+ GetName gw
            +:+ " in namespace " +:+ ns +:+ " expiration date is " +:+ expiryDate +:+ nl)
           :: stdout_of (trace (secretsLoop gw ns secrets)).
Proof.
  intros Hok.
  destruct (analyzeCertificate_ok _ _ Hok)
    as (certData & certBytes & output & Hdata & Hdecode & Hopenssl & Hexpiry & Htrace).
  exists certData, certBytes, output. split_and!; try done.
  - intros before date after Houtput Hbefore Hdate Hafter.
    rewrite Hexpiry, Houtput, TrimPrefix_app. by apply TrimSpace_clean.
  - rewrite secretsLoop_cons, Hok. cbn [trace snd].
    by rewrite stdout_of_app, analyzeCertificate_silent.
Qed.

(** ** Package [encoding/base64] *)

(** The bytes with a value in [decodeMap] are those of the alphabet. *)
Lemma decodeMap_alphabet (b : byte) :
  b ∈ base64.encodeStd <-> base64.decodeMap b <> 255.
Proof.
  assert (H : bool_decide (b ∈ base64.encodeStd) = negb (base64.decodeMap b =? 255)).
  { destruct b; vm_compute; reflexivity. }
  rewrite <- (bool_decide_eq_true (b ∈ base64.encodeStd)), H, negb_true_iff.
  apply Z.eqb_neq.
Qed.

Lemma skipNewlines_keeps (src : list byte) (si : Z) (b : byte) :
  b ∈ src -> base64.isNewline b = false -> b ∈ (base64.skipNewlines src si).1.
Proof.
  intros Hin Hb. revert si. induction src as [|c src IH]; intros si; [done|].
  cbn [base64.skipNewlines]. destruct (base64.isNewline c) eqn:Hc; [|done].
  apply elem_of_cons in Hin as [->|Hin]; [congruence | by apply IH].
Qed.

Lemma finish_rejects (dst : list byte) (dlen : nat) (d0 d1 d2 : Z) (src : list byte)
    (si : Z) (b : byte) :
  b ∈ src -> base64.isNewline b = false ->
  exists n, (base64.finish dst dlen d0 d1 d2 src si).2 = Some (base64.CorruptInputError n).
Proof.
  intros Hin Hb. unfold base64.finish.
  pose proof (skipNewlines_keeps src si b Hin Hb) as Hrest.
  destruct (base64.skipNewlines src si) as [[|c rest] si']; cbn in *.
  - by apply elem_of_nil in Hrest.
  - eauto.
Qed.

(** A byte that is neither of the alphabet, nor the padding sign, nor a
    line feed or carriage return makes the decoder fail, wherever it is. *)
Lemma decode_rejects (src : list byte) (b : byte) :
  b ∈ src ->
  base64.decodeMap b = 255 -> base64.isNewline b = false -> b <> base64.padChar ->
  forall si j d0 d1 d2 dst,
    exists n, (base64.decode src si j d0 d1 d2 dst).2 = Some (base64.CorruptInputError n).
Proof.
  intros Hin Hmap Hnl Hpad.
  induction src as [|c src IH]; intros si j d0 d1 d2 dst.
  { by apply elem_of_nil in Hin. }
  cbn [base64.decode].
  destruct (decide (c = b)) as [->|Hne].
  { rewrite Hmap, Hnl. cbn [Z.eqb negb Pos.eqb].
    destruct (Byte.eqb b base64.padChar) eqn:Heq; [|cbn; eauto].
    by apply Byte.byte_dec_bl in Heq. }
  assert (Hsrc : b ∈ src).
  { apply elem_of_cons in Hin as [->|Hin]; done. }
  specialize (IH Hsrc).
  destruct (negb (base64.decodeMap c =? 255)).
  { destruct j as [|[|[|j]]]; apply IH. }
  destruct (base64.isNewline c); [apply IH|].
  destruct (negb (Byte.eqb c base64.padChar)); [cbn; eauto|].
  destruct j as [|[|[|j]]]; [cbn; eauto | cbn; eauto | | by eapply finish_rejects].
  pose proof (skipNewlines_keeps src (si + 1) b Hsrc Hnl) as Hrest.
  destruct (base64.skipNewlines src (si + 1)) as [[|c' rest] si']; [cbn; eauto|].
  cbn [fst] in Hrest.
  destruct (Byte.eqb c' base64.padChar) eqn:Heq; [|cbn; eauto].
  cbn [negb]. apply Byte.byte_dec_bl in Heq as ->.
  apply elem_of_cons in Hrest as [->|Hrest]; [done|].
  by eapply finish_rejects.
Qed.


(** * Further properties of the program *)

(** ** Start-up *)

(** X1: [k8sClient] succeeds exactly when its three steps succeed; when it
    fails, the error is that of the first failing step (configuration,
    client, dynamic client, in this order), and [main] prints it on one
    line and asks nothing of the cluster. *)
Theorem client_failure_stops_main :
  (k8sClient = None
   <-> ClientConfig = None /\ kubernetes_NewForConfig = None /\ dynamic_NewForConfig = None)
  /\ (forall err,
        k8sClient = Some err ->
        main = (tt, [EvStdout (Sprintln2 "error creating the k8s clients:" err)])
        /\ ((exists e, ClientConfig = Some e
                       /\ err = "unable to get k8s config file: " +:+ e)
            \/ (exists e, ClientConfig = None /\ kubernetes_NewForConfig = Some e
                          /\ err = "unable to create k8s client: " +:+ e)
            \/ (exists e, ClientConfig = None /\ kubernetes_NewForConfig = None
                          /\ dynamic_NewForConfig = Some e
                          /\ err = "unable to create k8s dynamic client: " +:+ e))).
Proof.
  unfold main, k8sClient.
  destruct ClientConfig as [e0|], kubernetes_NewForConfig as [e1|],
    dynamic_NewForConfig as [e2|]; split;
    try (split; [discriminate | intros (? & ? & ?); discriminate]);
    try (split; done);
    try (intros ? ?; discriminate);
    intros err [= <-]; (split; [reflexivity|]); eauto 8.
Qed.

(** X2: when the listing of the namespaces fails, [getNamespaces] returns
    no namespace and the wrapped error, and [main] prints it on one line
    without listing any gateway, fetching any secret or running [openssl]. *)
Theorem namespace_listing_failure_stops_main (e : error) :
  Namespaces_List = Err e ->
  getNamespaces
    = (([], Some ("unable to get the list of namespaces: " +:+ e)), [EvListNamespaces])
  /\ (k8sClient = None ->
      main = (tt,
              [EvListNamespaces;
               EvStdout (Sprintln2 "error getting the list of namespaces:"
                           ("unable to get the list of namespaces: " +:+ e))])).
Proof.
  intros Hlist.
  assert (Hget : getNamespaces
    = (([], Some ("unable to get the list of namespaces: " +:+ e)), [EvListNamespaces])).
  { unfold getNamespaces. by rewrite Hlist. }
  split; [exact Hget|].
  intros Hclient. unfold main. by rewrite Hclient, Hget.
Qed.

(** ** Which events a part of the program can cause *)

Lemma analyzeCertificate_trace (secret : Secret) :
  trace (analyzeCertificate secret) = []
  \/ exists certData certBytes,
       Data secret !! "tls.crt" = Some certData
       /\ base64.DecodeString (string_of_list_byte (stripMarkers certData)) = (certBytes, None)
       /\ trace (analyzeCertificate secret) = [EvExec certBytes].
Proof.
  unfold analyzeCertificate.
  destruct (Data secret !! "tls.crt") as [certData|]; [|by left].
  destruct (base64.DecodeString _) as [certBytes [err|]] eqn:Hdecode; [by left|].
  right. exists certData, certBytes. rewrite bind_emit.
  by destruct (openssl_enddate certBytes) as [output [err|]].
Qed.

Lemma secretsLoop_events (gw : Unstructured) (ns : string) (secrets : list Secret)
    (e : event) :
  e ∈ trace (secretsLoop gw ns secrets) ->
  (exists stdin, e = EvExec stdin) \/ (exists text, e = EvStdout text).
Proof.
  induction secrets as [|secret secrets IH].
  - intros Hin. cbn in Hin. by apply elem_of_nil in Hin.
  - rewrite secretsLoop_cons. cbn [trace snd].
    intros [Hin|[->|Hin]%elem_of_cons]%elem_of_app; [|eauto|by apply IH].
    destruct (analyzeCertificate_trace secret) as [Ht|(? & certBytes & _ & _ & Ht)];
      rewrite Ht in Hin.
    + by apply elem_of_nil in Hin.
    + apply list_elem_of_singleton in Hin. eauto.
Qed.

Lemma getGatewaySecrets_events (gw : Unstructured) (e : event) :
  e ∈ trace (getGatewaySecrets gw) ->
  exists servers serverObj credentialName,
    spec_servers gw = Some servers
    /\ serverObj ∈ servers
    /\ terminated serverObj = Some credentialName
    /\ e = EvGetSecret (GetNamespace gw) credentialName.
Proof.
  closed.
  pose proof (getGatewaySecrets_servers gw) as Hgw.
  destruct (spec_servers gw) as [servers|].
  - rewrite Hgw.
    destruct (serversLoop_cases (GetNamespace gw) servers [])
      as [(fetched & _ & _ & ->)|(before & s & after & fetched & err & -> & _ & _ & _ & ->)];
      cbn [trace snd].
    + intros (credentialName & -> & (serverObj & Hin & Hterm)%list_elem_of_omap)%list_elem_of_fmap.
      exists servers, serverObj, credentialName. done.
    + intros [Hin|Hin]%elem_of_app.
      * apply list_elem_of_fmap in Hin
          as (credentialName & -> & (serverObj & Hin & Hterm)%list_elem_of_omap).
        exists (before ++ s :: after), serverObj, credentialName.
        split_and!; [done | set_solver | done | done].
      * unfold last_fetch in Hin.
        destruct (terminated s) as [credentialName|] eqn:Hterm.
        -- apply list_elem_of_singleton in Hin as ->.
           exists (before ++ s :: after), s, credentialName.
           split_and!; [done | set_solver | done | done].
        -- by apply elem_of_nil in Hin.
  - destruct Hgw as [cause ->]. intros Hin. cbn in Hin. by apply elem_of_nil in Hin.
Qed.

Lemma gatewaysLoop_events (ns : string) (items : list Unstructured) (e : event) :
  e ∈ trace (gatewaysLoop ns items) ->
  (exists gw, gw ∈ items /\ e ∈ trace (getGatewaySecrets gw))
  \/ (exists stdin, e = EvExec stdin)
  \/ (exists text, e = EvStdout text).
Proof.
  induction items as [|gw items IH].
  - intros Hin. cbn in Hin. by apply elem_of_nil in Hin.
  - rewrite gatewaysLoop_cons. cbn [trace snd].
    intros [Hin|[Hin|Hin]%elem_of_app]%elem_of_app.
    + left. exists gw. split; [left | done].
    + right. destruct (value_of (getGatewaySecrets gw)) as [secrets [err|]].
      * apply list_elem_of_singleton in Hin. eauto.
      * by eapply secretsLoop_events.
    + destruct (IH Hin) as [(gw' & Hgw' & Hin')|Hother]; [|by right].
      left. exists gw'. split; [by right | done].
Qed.

Lemma getNsGateways_events (nsList : list string) (e : event) :
  e ∈ trace (getNsGateways nsList) ->
  (exists ns, ns ∈ nsList /\ e = EvListGateways ns)
  \/ (exists ns items,
        ns ∈ nsList /\ Gateways_List ns = Ok items /\ e ∈ trace (gatewaysLoop ns items)).
Proof.
  induction nsList as [|ns nsList IH].
  - intros Hin. cbn in Hin. by apply elem_of_nil in Hin.
  - rewrite getNsGateways_cons.
    destruct (Gateways_List ns) as [items|err] eqn:Hlist; cbn [trace snd].
    + intros [->|[Hin|Hin]%elem_of_app]%elem_of_cons.
      * left. exists ns. split; [left | done].
      * right. exists ns, items. split; [left | done].
      * destruct (IH Hin) as [(ns' & Hns' & ->)|(ns' & items' & Hns' & Hlist' & Hin')].
        -- left. exists ns'. split; [by right | done].
        -- right. exists ns', items'. split; [by right | done].
    + intros ->%list_elem_of_singleton. left. exists ns. split; [left | done].
Qed.

(** ** The walk over the namespaces *)

Lemma gatewaysLoop_lists_nothing (ns : string) (items : list Unstructured) :
  listings_of (trace (gatewaysLoop ns items)) = [].
Proof.
  assert (H : forall t : list event,
             (forall e, e ∈ t -> forall ns', e <> EvListGateways ns') -> listings_of t = []).
  { induction t as [|e t IH]; [done|]. intros Hall. cbn.
    destruct e; try (apply IH; intros; apply Hall; by right).
    destruct (Hall (EvListGateways ns0) ltac:(left) ns0). done. }
  apply H. intros e Hin ns' ->.
  apply gatewaysLoop_events in Hin as [(gw & _ & Hin)|[[? ?]|[? ?]]]; try discriminate.
  apply getGatewaySecrets_events in Hin as (? & ? & ? & _ & _ & _ & ?). discriminate.
Qed.

(** X3: [getNsGateways] lists the gateways of the namespaces one by one in
    the order of its argument and stops at the first listing that fails: it
    returns no error exactly when every listing succeeds, and then it has
    listed every namespace once; when it returns an error, the error is
    that of the namespace listed last. *)
Theorem scan_lists_in_order (nsList : list string) :
  listings_of (trace (getNsGateways nsList)) `prefix_of` nsList
  /\ (value_of (getNsGateways nsList) = None
      <-> Forall (fun ns => exists items, Gateways_List ns = Ok items) nsList)
  /\ (value_of (getNsGateways nsList) = None ->
      listings_of (trace (getNsGateways nsList)) = nsList)
  /\ (forall err,
        value_of (getNsGateways nsList) = Some err ->
        exists ns,
          last (listings_of (trace (getNsGateways nsList))) = Some ns
          /\ Gateways_List ns = Err err).
Proof.
  induction nsList as [|ns nsList (IHprefix & IHiff & IHall & IHerr)].
  { split_and!; [done | done | done | intros ? ?; discriminate]. }
  rewrite getNsGateways_cons.
  destruct (Gateways_List ns) as [items|e] eqn:Hlist; cbn [value_of trace fst snd].
  - assert (Hl : listings_of (EvListGateways ns
                    :: trace (gatewaysLoop ns items) ++ trace (getNsGateways nsList))
                 = ns :: listings_of (trace (getNsGateways nsList))).
    { unfold listings_of at 1. cbn [omap list_omap]. f_equal.
      fold (listings_of (trace (gatewaysLoop ns items) ++ trace (getNsGateways nsList))).
      unfold listings_of. rewrite omap_app. fold listings_of.
      by rewrite gatewaysLoop_lists_nothing. }
    rewrite Hl. split_and!.
    + by apply prefix_cons.
    + rewrite IHiff. split.
      * intros Hall. constructor; [eauto | done].
      * by intros [_ Hall]%Forall_cons.
    + intros Hok. by rewrite IHall.
    + intros err Herr. destruct (IHerr err Herr) as (ns' & Hlast & Hfail).
      exists ns'. split; [|done].
      destruct (listings_of (trace (getNsGateways nsList))); [discriminate | done].
  - split_and!.
    + apply (prefix_cons ns [] nsList), prefix_nil.
    + split; [discriminate|]. intros [[items Hitems] _]%Forall_cons. congruence.
    + discriminate.
    + intros err [= <-]. by exists ns.
Qed.

(** X4: whatever the cluster answers, [main] never lists the gateways of
    [kube-system] or of [xcp-multicluster]; it only lists gateways of
    namespaces that the listing of the namespaces returned. *)
Theorem reserved_namespaces_never_listed (ns : string) :
  EvListGateways ns ∈ trace main ->
  ns <> "kube-system" /\ ns <> "xcp-multicluster"
  /\ exists items, Namespaces_List = Ok items /\ ns ∈ (nsName <$> items).
Proof.
  unfold main. destruct k8sClient as [err|].
  { intros Hin. apply list_elem_of_singleton in Hin. discriminate. }
  unfold getNamespaces. destruct Namespaces_List as [items|err] eqn:Hlist.
  - rewrite keepNamespaces_scanned. cbn [app bind emit ret].
    destruct (getNsGateways (scanned items)) as [o t] eqn:Hscan.
    intros Hin.
    assert (Ht : EvListGateways ns ∈ trace (getNsGateways (scanned items))).
    { rewrite Hscan. cbn [trace snd].
      destruct o as [err|]; cbn in Hin;
        apply elem_of_cons in Hin as [?|Hin]; try discriminate.
      - apply elem_of_app in Hin as [Hin|Hin]; [done|].
        apply list_elem_of_singleton in Hin. discriminate.
      - by rewrite ?app_nil_r in Hin. }
    apply getNsGateways_events in Ht as [(ns' & Hns' & [= <-])|(ns' & items' & _ & _ & Ht)].
    + unfold scanned in Hns'. apply list_elem_of_filter in Hns' as [[Hks Hxcp] Hin'].
      split_and!; [done | done | by exists items].
    + apply gatewaysLoop_events in Ht as [(gw & _ & Ht)|[[? ?]|[? ?]]]; try discriminate.
      apply getGatewaySecrets_events in Ht as (? & ? & ? & _ & _ & _ & ?). discriminate.
  - intros Hin. cbn in Hin.
    apply elem_of_cons in Hin as [?|Hin]; [discriminate|].
    apply list_elem_of_singleton in Hin. discriminate.
Qed.

(** X5: every secret that a scan fetches is the credential of a terminated
    server (mode present and not pass-through) of a gateway that the
    listing of a scanned namespace returned, and it is fetched from the
    namespace that the gateway itself carries in [metadata.namespace]. *)
Theorem fetches_come_from_terminated_servers (nsList : list string)
    (namespace credentialName : string) :
  EvGetSecret namespace credentialName ∈ trace (getNsGateways nsList) ->
  exists ns items gw servers server mode,
    ns ∈ nsList
    /\ Gateways_List ns = Ok items
    /\ gw ∈ items
    /\ spec_servers gw = Some servers
    /\ VMap server ∈ servers
    /\ server_string server "tls" "mode" = Some mode
    /\ mode <> "PASSTHROUGH"
    /\ server_string server "tls" "credentialName" = Some credentialName
    /\ namespace = GetNamespace gw.
Proof.
  intros [(? & _ & ?)|(ns & items & Hns & Hlist & Hin)]%getNsGateways_events;
    [discriminate|].
  apply gatewaysLoop_events in Hin as [(gw & Hgw & Hin)|[[? ?]|[? ?]]]; try discriminate.
  apply getGatewaySecrets_events in Hin
    as (servers & serverObj & name & Hservers & Hserver & Hterm & [= -> ->]).
  apply terminated_inv in Hterm as (server & mode & -> & Hmode & Hpass & Hname).
  exists ns, items, gw, servers, server, mode. split_and!; done.
Qed.

(** ** The walk over the gateways and their secrets *)

(** X6: the loop over the secrets of a gateway prints exactly one line per
    secret, in the order of the secrets: a result line when the analysis
    succeeds, a diagnostic when it fails. *)
Theorem one_line_per_secret (gw : Unstructured) (ns : string) (secrets : list Secret) :
  stdout_of (trace (secretsLoop gw ns secrets)) = secret_line gw ns <$> secrets.
Proof.
  induction secrets as [|secret secrets IH]; [reflexivity|].
  rewrite secretsLoop_cons. cbn [trace snd].
  rewrite stdout_of_app, analyzeCertificate_silent, fmap_cons, <- IH.
  unfold secret_line. by destruct (value_of (analyzeCertificate secret)) as [d [e|]].
Qed.

(** X7: the gateways of a namespace are handled independently and in
    order: the events of a list of gateways are the events of its first
    part followed by the events of the rest. *)
Theorem gateways_compose (ns : string) (items1 items2 : list Unstructured) :
  gatewaysLoop ns (items1 ++ items2)
    = (tt, trace (gatewaysLoop ns items1) ++ trace (gatewaysLoop ns items2)).
Proof.
  induction items1 as [|gw items1 IH].
  - cbn [app trace snd gatewaysLoop ret]. by destruct (gatewaysLoop ns items2) as [[] t].
  - cbn [app]. rewrite !gatewaysLoop_cons, IH. cbn [trace snd].
    by rewrite <- !app_assoc.
Qed.

Lemma serversLoop_all_skipped (namespace : string) (servers : list value)
    (secrets : list Secret) :
  Forall (fun serverObj => exists server, serverObj = VMap server /\ soft_skip server) servers ->
  serversLoop namespace servers secrets = ((secrets, None), []).
Proof.
  induction 1 as [|serverObj servers (server & -> & Hskip) _ IH]; [reflexivity|].
  apply soft_skip_terminated in Hskip. by rewrite serversLoop_record, Hskip.
Qed.

(** X8: a gateway all of whose servers are records under a soft-skip
    condition (among them a gateway without servers) leaves no mark: no
    secret is fetched, [openssl] is not run, no line and no diagnostic is
    printed, and the walk goes on with the next gateway. *)
Theorem skipped_gateway_is_silent (ns : string) (gw : Unstructured)
    (items : list Unstructured) (servers : list value) :
  spec_servers gw = Some servers ->
  Forall (fun serverObj => exists server, serverObj = VMap server /\ soft_skip server) servers ->
  getGatewaySecrets gw = (([], None), [])
  /\ gatewaysLoop ns (gw :: items) = gatewaysLoop ns items.
Proof.
  intros Hservers Hskipped.
  assert (Hgw : getGatewaySecrets gw = (([], None), [])).
  { pose proof (getGatewaySecrets_servers gw) as H. rewrite Hservers in H.
    rewrite H. by apply serversLoop_all_skipped. }
  split; [exact Hgw|].
  rewrite gatewaysLoop_cons, Hgw. cbn. by destruct (gatewaysLoop ns items) as [[] t].
Qed.

(** ** The certificate pipeline, continued *)

(** X9: the analysis of a secret fails for one of three reasons and
    returns the empty string with the error: the key [tls.crt] is missing,
    or the stripped payload is not base64 ([openssl] is not run in either
    case), or [openssl] reports an error, after one run on the decoded
    payload, whatever it has written. *)
Theorem analysis_failures (secret : Secret) (expiryDate : string) (err : error) :
  value_of (analyzeCertificate secret) = (expiryDate, Some err) ->
  expiryDate = EmptyString
  /\ ((Data secret !! "tls.crt" = None
       /\ err = "tls.crt not found in secret"
       /\ trace (analyzeCertificate secret) = [])
      \/ (exists certData cause,
            Data secret !! "tls.crt" = Some certData
            /\ (base64.DecodeString (string_of_list_byte (stripMarkers certData))).2
               = Some cause
            /\ err = "error decoding certificate data: " +:+ cause
            /\ trace (analyzeCertificate secret) = [])
      \/ (exists certData certBytes output cause,
            Data secret !! "tls.crt" = Some certData
            /\ base64.DecodeString (string_of_list_byte (stripMarkers certData))
               = (certBytes, None)
            /\ openssl_enddate certBytes = (output, Some cause)
            /\ err = "openssl error: " +:+ cause
            /\ trace (analyzeCertificate secret) = [EvExec certBytes])).
Proof.
  unfold analyzeCertificate.
  destruct (Data secret !! "tls.crt") as [certData|].
  - destruct (base64.DecodeString _) as [certBytes [cause|]] eqn:Hdecode.
    + intros [= <- <-]. split; [done|]. right; left.
      exists certData, cause. split_and!; try done. by rewrite Hdecode.
    + rewrite bind_emit.
      destruct (openssl_enddate certBytes) as [output [cause|]] eqn:Hopenssl;
        cbn [value_of trace ret fst snd]; [|discriminate].
      intros [= <- <-]. split; [done|]. right; right.
      exists certData, certBytes, output, cause. split_and!; done.
  - intros [= <- <-]. split; [done|]. left. split_and!; done.
Qed.

Lemma spaces_lack_prefix (s : string) :
  all_space s -> strings.TrimPrefix s "notAfter=" = s.
Proof.
  unfold strings.TrimPrefix, strings.HasPrefix, all_space.
  destruct s as [|c s]; [done|]. intros [Hc _]%Forall_cons.
  change (String.prefix "notAfter=" (String c s))
    with (if ascii_dec "n" c then String.prefix "otAfter=" s else false).
  destruct (ascii_dec "n" c) as [<-|]; [discriminate | done].
Qed.

(** X10: when [openssl] succeeds but writes nothing but white space, with
    or without the prefix [notAfter=], the analysis still succeeds, with an
    empty expiration string, and the result line is printed with nothing
    after [expiration date is]. *)
Theorem blank_output_still_printed (gw : Unstructured) (ns : string) (secret : Secret)
    (secrets : list Secret) (certData certBytes output : list byte) (blank : string) :
  Data secret !! "tls.crt" = Some certData ->
  base64.DecodeString (string_of_list_byte (stripMarkers certData)) = (certBytes, None) ->
  openssl_enddate certBytes = (output, None) ->
  all_space blank ->
  string_of_list_byte output = blank
  \/ string_of_list_byte output = "notAfter=" +:+ blank ->
  analyzeCertificate secret = ((EmptyString, None), [EvExec certBytes])
  /\ stdout_of (trace (secretsLoop gw ns (secret :: secrets)))
     = ("Certificate " +:+ Name secret +:+ " in gateway " +:+ GetName gw
          +:+ " in namespace " +:+ ns +:+ " expiration date is " +:+ nl)
         :: stdout_of (trace (secretsLoop gw ns secrets)).
Proof.
  intros Hdata Hdecode Hopenssl Hblank Houtput.
  assert (Hok : analyzeCertificate secret = ((EmptyString, None), [EvExec certBytes])).
  { unfold analyzeCertificate. rewrite Hdata, Hdecode, bind_emit, Hopenssl.
    cbn [value_of trace ret fst snd].
    destruct Houtput as [-> | ->].
    - by rewrite spaces_lack_prefix, TrimSpace_spaces.
    - by rewrite TrimPrefix_app, TrimSpace_spaces. }
  split; [exact Hok|].
  rewrite secretsLoop_cons, Hok. reflexivity.
Qed.

(** ** Package [bytes] *)

Lemma HasPrefix_app (old rest : list byte) : bytes.HasPrefix (old ++ rest) old = true.
Proof.
  induction old as [|b old IH]; [by destruct rest|].
  cbn. by rewrite Byte.byte_dec_lb, IH.
Qed.

Lemma HasPrefix_lookup (s old : list byte) (k : nat) (c : byte) :
  bytes.HasPrefix s old = true -> old !! k = Some c -> s !! k = Some c.
Proof.
  revert s k. induction old as [|p old IH]; intros s k; [done|].
  destruct s as [|b s]; [done|]. cbn [bytes.HasPrefix].
  intros [Hb Hrest]%andb_prop. apply Byte.byte_dec_bl in Hb as ->.
  destruct k as [|k]; [done|]. intros Hk. exact (IH s k Hrest Hk).
Qed.

Lemma replaceFrom_skip (old new skipped rest : list byte) :
  bytes.replaceFrom old new (length skipped) (skipped ++ rest)
    = bytes.replaceFrom old new 0 rest.
Proof.
  induction skipped as [|b skipped IH]; [|done].
  by destruct rest.
Qed.

(** An occurrence at the head is replaced. *)
Lemma replaceFrom_match (old new rest : list byte) :
  old <> [] ->
  bytes.replaceFrom old new 0 (old ++ rest) = new ++ bytes.replaceFrom old new 0 rest.
Proof.
  destruct old as [|c old]; [done|]. intros _.
  pose proof (HasPrefix_app (c :: old) rest) as Hprefix.
  cbn [app bytes.replaceFrom] in *. rewrite Hprefix. cbn [length Nat.pred].
  by rewrite replaceFrom_skip.
Qed.

(** Bytes at which no occurrence can start are copied. *)
Lemma replaceFrom_pass (old new body rest : list byte) (k : nat) (c : byte) :
  old !! k = Some c ->
  (forall i : nat, (i < length body)%nat -> (body ++ rest) !! (i + k)%nat <> Some c) ->
  bytes.replaceFrom old new 0 (body ++ rest) = body ++ bytes.replaceFrom old new 0 rest.
Proof.
  intros Hold. induction body as [|b body IH]; intros Hfree; [done|].
  cbn [app bytes.replaceFrom].
  destruct (bytes.HasPrefix (b :: body ++ rest) old) eqn:Hprefix.
  - destruct (Hfree 0%nat); [cbn; lia|].
    by apply (HasPrefix_lookup _ old).
  - f_equal. apply IH. intros i Hi. apply (Hfree (S i)). cbn. lia.
Qed.

Lemma no_dash_ahead (body rest : list byte) :
  dash ∉ body -> head rest <> Some dash ->
  forall i : nat, (i < length body)%nat -> (body ++ rest) !! (i + 1)%nat <> Some dash.
Proof.
  intros Hbody Hrest i Hi Hlookup.
  destruct (decide (i + 1 < length body)%nat) as [Hlt|Hge].
  - rewrite lookup_app_l in Hlookup by done.
    by apply list_elem_of_lookup_2 in Hlookup.
  - rewrite lookup_app_r in Hlookup by lia.
    replace (i + 1 - length body)%nat with 0%nat in Hlookup by lia.
    by destruct rest.
Qed.

(** A payload without any dash holds no marker and is left as it is. *)
Lemma stripMarkers_no_dash (certData : list byte) :
  dash ∉ certData -> stripMarkers certData = certData.
Proof.
  intros Hfree.
  assert (Hpass : forall old : list byte,
             old !! 1%nat = Some dash -> bytes.ReplaceAll certData old [] = certData).
  { intros old Hold. unfold bytes.ReplaceAll.
    rewrite <- (app_nil_r certData) at 1.
    rewrite (replaceFrom_pass old [] certData [] 1 dash Hold);
      [apply app_nil_r | by apply no_dash_ahead]. }
  unfold stripMarkers. rewrite (Hpass beginMarker) by reflexivity.
  by apply Hpass.
Qed.

(** Of a PEM text made of the header line, a body without dashes, the
    footer and a remainder without dashes, the two replacements leave the
    body followed by the remainder. *)
Lemma stripMarkers_envelope (body rest : list byte) :
  dash ∉ body -> dash ∉ rest ->
  stripMarkers (beginMarker ++ body ++ endMarker ++ rest) = body ++ rest.
Proof.
  intros Hbody Hrest.
  assert (Hhead : head (endMarker ++ rest) <> Some dash) by discriminate.
  assert (Hbegin : bytes.ReplaceAll (beginMarker ++ body ++ endMarker ++ rest) beginMarker []
                   = body ++ endMarker ++ rest).
  { unfold bytes.ReplaceAll. rewrite replaceFrom_match by discriminate.
    cbn [app].
    rewrite (replaceFrom_pass beginMarker [] body (endMarker ++ rest) 1 dash)
      by (reflexivity || by apply no_dash_ahead).
    f_equal.
    rewrite <- (app_nil_r (endMarker ++ rest)) at 1.
    rewrite (replaceFrom_pass beginMarker [] (endMarker ++ rest) [] 26 dash);
      [apply app_nil_r | reflexivity |].
    intros i _ Hlookup. rewrite app_nil_r in Hlookup.
    rewrite lookup_app_r in Hlookup by (change (length endMarker) with 26%nat; lia).
    by apply list_elem_of_lookup_2 in Hlookup. }
  unfold stripMarkers. rewrite Hbegin. unfold bytes.ReplaceAll.
  rewrite (replaceFrom_pass endMarker [] body (endMarker ++ rest) 1 dash)
    by (reflexivity || by apply no_dash_ahead).
  f_equal. rewrite replaceFrom_match by discriminate. cbn [app].
  rewrite <- (app_nil_r rest) at 1.
  rewrite (replaceFrom_pass endMarker [] rest [] 1 dash);
    [apply app_nil_r | reflexivity | by apply no_dash_ahead].
Qed.

(** ** Package [encoding/base64], continued *)

Lemma skipNewlines_without (src : list byte) (si si' : Z) :
  without_newlines (base64.skipNewlines src si).1
    = (base64.skipNewlines (without_newlines src) si').1
  /\ ((base64.skipNewlines src si).1 = []
      <-> (base64.skipNewlines (without_newlines src) si').1 = []).
Proof.
  revert si. induction src as [|c src IH]; intros si; [done|].
  unfold without_newlines in *. rewrite filter_cons. cbn [base64.skipNewlines].
  destruct (base64.isNewline c) eqn:Hc.
  - rewrite decide_False by congruence. apply IH.
  - rewrite decide_True by done. cbn [base64.skipNewlines]. rewrite Hc. cbn [fst].
    rewrite filter_cons, decide_True by done. done.
Qed.

Lemma skipNewlines_head (src : list byte) (si : Z) (c : byte) (rest : list byte) :
  (base64.skipNewlines src si).1 = c :: rest -> base64.isNewline c = false.
Proof.
  revert si. induction src as [|b src IH]; intros si; [done|].
  cbn [base64.skipNewlines]. destruct (base64.isNewline b) eqn:Hb; [apply IH|].
  by intros [= <- _].
Qed.

Lemma finish_without (dst : list byte) (dlen : nat) (d0 d1 d2 : Z) (src : list byte)
    (si si' : Z) :
  (base64.finish dst dlen d0 d1 d2 src si).1
    = (base64.finish dst dlen d0 d1 d2 (without_newlines src) si').1
  /\ ((base64.finish dst dlen d0 d1 d2 src si).2 = None
      <-> (base64.finish dst dlen d0 d1 d2 (without_newlines src) si').2 = None).
Proof.
  unfold base64.finish.
  destruct (skipNewlines_without src si si') as [_ Hnil].
  destruct (base64.skipNewlines src si) as [rest n],
    (base64.skipNewlines (without_newlines src) si') as [rest' n'].
  cbn [fst snd] in *. split; [done|].
  destruct rest, rest'; try done; destruct Hnil as [H1 H2];
    try (by specialize (H1 eq_refl)); by specialize (H2 eq_refl).
Qed.

Lemma decode_without (src : list byte) :
  forall (si si' : Z) (j : nat) (d0 d1 d2 : Z) (dst : list byte),
    (base64.decode src si j d0 d1 d2 dst).1
      = (base64.decode (without_newlines src) si' j d0 d1 d2 dst).1
    /\ ((base64.decode src si j d0 d1 d2 dst).2 = None
        <-> (base64.decode (without_newlines src) si' j d0 d1 d2 dst).2 = None).
Proof.
  induction src as [|c src IH]; intros si si' j d0 d1 d2 dst.
  { cbn. by destruct j. }
  assert (Hnl : base64.isNewline c = true -> base64.decodeMap c = 255).
  { unfold base64.isNewline. intros [H|H]%orb_prop; apply Byte.byte_dec_bl in H as ->; done. }
  unfold without_newlines in *. rewrite filter_cons.
  destruct (base64.isNewline c) eqn:Hc.
  - rewrite decide_False by congruence. cbn [base64.decode].
    rewrite (Hnl eq_refl), Hc. cbn [Z.eqb Pos.eqb negb]. apply IH.
  - rewrite decide_True by done. cbn [base64.decode]. rewrite Hc.
    destruct (negb (base64.decodeMap c =? 255)).
    { destruct j as [|[|[|j]]]; apply IH. }
    destruct (negb (Byte.eqb c base64.padChar)); [done|].
    destruct j as [|[|[|j]]]; [done | done | | apply finish_without].
    destruct (skipNewlines_without src (si + 1) (si' + 1)) as [Hrest Hnil].
    fold (without_newlines src) in *.
    pose proof (skipNewlines_head src (si + 1)) as Hhead.
    destruct (base64.skipNewlines src (si + 1)) as [[|c' rest] n],
      (base64.skipNewlines (without_newlines src) (si' + 1)) as [rest' n'];
      cbn [fst snd] in *.
    + destruct Hnil as [-> _]; done.
    + specialize (Hhead c' rest eq_refl).
      unfold without_newlines in Hrest.
      rewrite filter_cons, decide_True in Hrest by done. subst rest'.
      destruct (negb (Byte.eqb c' base64.padChar)); [done|].
      apply finish_without.
Qed.

(** ** The envelope of the certificate *)

(** What the analysis does once the payload is found, by the outcome of the
    decoder on the stripped payload. *)
Lemma analyzeCertificate_decoder (secret : Secret) (certData : list byte) :
  Data secret !! "tls.crt" = Some certData ->
  (forall cause,
     (base64.DecodeString (string_of_list_byte (stripMarkers certData))).2 = Some cause ->
     analyzeCertificate secret
       = ((EmptyString, Some ("error decoding certificate data: " +:+ cause)), []))
  /\ (forall certBytes,
        base64.DecodeString (string_of_list_byte (stripMarkers certData)) = (certBytes, None) ->
        trace (analyzeCertificate secret) = [EvExec certBytes]
        /\ value_of (analyzeCertificate secret)
           = match openssl_enddate certBytes with
             | (_, Some err) => (EmptyString, Some ("openssl error: " +:+ err))
             | (output, None) =>
                 (TrimSpace (strings.TrimPrefix (string_of_list_byte output) "notAfter="),
                  None)
             end).
Proof.
  intros Hdata. unfold analyzeCertificate. rewrite Hdata. split.
  - intros cause Hcause.
    destruct (base64.DecodeString _) as [certBytes err]. cbn in Hcause. by subst err.
  - intros certBytes ->. rewrite bind_emit.
    by destruct (openssl_enddate certBytes) as [output [err|]].
Qed.

(** X11: a payload without any dash, as a bare base64 body is, holds no
    marker: the decoder receives the payload as it is, a decode error is
    reported without running [openssl], and otherwise [openssl] is run on
    the decoded payload. *)
Theorem bare_payload_decoded_as_is (secret : Secret) (certData : list byte) :
  Data secret !! "tls.crt" = Some certData ->
  dash ∉ certData ->
  (forall cause,
     (base64.DecodeString (string_of_list_byte certData)).2 = Some cause ->
     analyzeCertificate secret
       = ((EmptyString, Some ("error decoding certificate data: " +:+ cause)), []))
  /\ (forall certBytes,
        base64.DecodeString (string_of_list_byte certData) = (certBytes, None) ->
        trace (analyzeCertificate secret) = [EvExec certBytes]).
Proof.
  intros Hdata Hfree.
  destruct (analyzeCertificate_decoder secret certData Hdata) as [Herr Hok].
  rewrite stripMarkers_no_dash in Herr, Hok by done.
  split; [exact Herr|]. intros certBytes Hdecode. by apply Hok.
Qed.

(** X12: of a PEM text made of the header line, a body without dashes, the
    footer and a remainder without dashes (the final line feed, if any),
    the decoder receives the body followed by the remainder, and nothing
    of the two markers. *)
Theorem pem_envelope_removed (secret : Secret) (body rest : list byte) :
  Data secret !! "tls.crt" = Some (beginMarker ++ body ++ endMarker ++ rest) ->
  dash ∉ body -> dash ∉ rest ->
  (forall cause,
     (base64.DecodeString (string_of_list_byte (body ++ rest))).2 = Some cause ->
     analyzeCertificate secret
       = ((EmptyString, Some ("error decoding certificate data: " +:+ cause)), []))
  /\ (forall certBytes,
        base64.DecodeString (string_of_list_byte (body ++ rest)) = (certBytes, None) ->
        trace (analyzeCertificate secret) = [EvExec certBytes]).
Proof.
  intros Hdata Hbody Hrest.
  destruct (analyzeCertificate_decoder secret _ Hdata) as [Herr Hok].
  rewrite stripMarkers_envelope in Herr, Hok by done.
  split; [exact Herr|]. intros certBytes Hdecode. by apply Hok.
Qed.

(** X13: line feeds and carriage returns in the text do not matter to the
    decoder: with them or without them it yields the same bytes, and it
    fails on the one exactly when it fails on the other. *)
Theorem line_breaks_do_not_matter (payload : list byte) :
  (base64.DecodeString (string_of_list_byte payload)).1
    = (base64.DecodeString (string_of_list_byte (without_newlines payload))).1
  /\ ((base64.DecodeString (string_of_list_byte payload)).2 = None
      <-> (base64.DecodeString (string_of_list_byte (without_newlines payload))).2 = None).
Proof.
  unfold base64.DecodeString. rewrite !list_byte_of_string_of_list_byte.
  apply decode_without.
Qed.

Lemma without_newlines_app (body rest : list byte) :
  Forall (fun b => base64.isNewline b = true) rest ->
  without_newlines (body ++ rest) = without_newlines body.
Proof.
  intros Hrest. unfold without_newlines. rewrite filter_app.
  assert (Hnil : filter (fun b => base64.isNewline b = false) rest = []).
  { induction Hrest as [|b rest Hb _ IH]; [done|].
    rewrite filter_cons, decide_False by congruence. exact IH. }
  by rewrite Hnil, app_nil_r.
Qed.

(** X14: the envelope and the line wrapping of a PEM text are transparent.
    A secret that holds header, body, footer and final line breaks is
    analyzed like a secret that holds the body alone on one line: [openssl]
    is run on the same bytes or not at all, and the one analysis yields an
    expiration string exactly when the other yields it. *)
Theorem pem_wrapping_is_transparent (bare wrapped : Secret) (body rest : list byte) :
  Data bare !! "tls.crt" = Some (without_newlines body) ->
  Data wrapped !! "tls.crt" = Some (beginMarker ++ body ++ endMarker ++ rest) ->
  dash ∉ body ->
  Forall (fun b => base64.isNewline b = true) rest ->
  trace (analyzeCertificate wrapped) = trace (analyzeCertificate bare)
  /\ (forall expiryDate,
        value_of (analyzeCertificate wrapped) = (expiryDate, None)
        <-> value_of (analyzeCertificate bare) = (expiryDate, None)).
Proof.
  intros Hbare Hwrapped Hbody Hrest.
  assert (Hdash : dash ∉ rest).
  { intros Hin. rewrite Forall_forall in Hrest. by specialize (Hrest dash Hin). }
  assert (Hbody' : dash ∉ without_newlines body).
  { unfold without_newlines. by intros [_ ?]%list_elem_of_filter. }
  destruct (analyzeCertificate_decoder bare _ Hbare) as [Herr Hok].
  destruct (analyzeCertificate_decoder wrapped _ Hwrapped) as [Herr' Hok'].
  rewrite stripMarkers_no_dash in Herr, Hok by done.
  rewrite stripMarkers_envelope in Herr', Hok' by done.
  unfold base64.DecodeString in *.
  rewrite !list_byte_of_string_of_list_byte in *.
  destruct (decode_without (body ++ rest) 0 0 0%nat 0 0 0 []) as [Hbytes Hnone].
  rewrite without_newlines_app in Hbytes, Hnone by done.
  destruct (base64.decode (body ++ rest) 0 0 0 0 0 []) as [certBytes' o'],
    (base64.decode (without_newlines body) 0 0 0 0 0 []) as [certBytes o].
  cbn [fst snd] in *. subst certBytes'.
  destruct o as [cause|], o' as [cause'|].
  - rewrite (Herr _ eq_refl), (Herr' _ eq_refl). split; [done|]. intros d. split; discriminate.
  - destruct Hnone as [H _]. by specialize (H eq_refl).
  - destruct Hnone as [_ H]. by specialize (H eq_refl).
  - destruct (Hok _ eq_refl) as [-> ->], (Hok' _ eq_refl) as [-> ->]. done.
Qed.

(** C10, amended: when the [tls.crt] payload, once the two PEM markers are
    removed, still holds a byte that is neither a character of the base64
    alphabet, nor the padding sign, nor a line feed or carriage return,
    [analyzeCertificate] returns a decode error without running [openssl],
    and the loop prints a diagnostic and no result line for the secret.
    Line feeds and carriage returns are ignored by the decoder and cause
    no decode error: the stripped payload decodes to the same bytes, and
    fails to decode in the same cases, as the stripped payload with all of
    them taken out, and when the latter decodes [openssl] is run on the
    decoded bytes. *)
Theorem decode_error_before_openssl (gw : Unstructured) (ns : string) (secret : Secret)
    (secrets : list Secret) (certData : list byte) :
  Data secret !! "tls.crt" = Some certData ->
  (forall b : byte,
     b ∈ stripMarkers certData ->
     ~ base64_char b ->
     b <> "010"%byte -> b <> "013"%byte ->
     exists cause,
       analyzeCertificate secret
         = ((EmptyString, Some ("error decoding certificate data: " +:+ cause)), [])
       /\ stdout_of (trace (secretsLoop gw ns (secret :: secrets)))
          = ("error analyzing certificate for gateway " +:+ GetName gw
               +:+ " in namespace " +:+ ns +:+ ": "
               +:+ ("error decoding certificate data: " +:+ cause) +:+ nl)
              :: stdout_of (trace (secretsLoop gw ns secrets)))
  /\ (base64.DecodeString (string_of_list_byte (stripMarkers certData))).1
     = (base64.DecodeString
          (string_of_list_byte (without_newlines (stripMarkers certData)))).1
  /\ ((base64.DecodeString (string_of_list_byte (stripMarkers certData))).2 = None
      <-> (base64.DecodeString
             (string_of_list_byte (without_newlines (stripMarkers certData)))).2 = None)
  /\ (forall certBytes,
        base64.DecodeString
          (string_of_list_byte (without_newlines (stripMarkers certData)))
          = (certBytes, None) ->
        trace (analyzeCertificate secret) = [EvExec certBytes]
        /\ forall cause,
             snd (value_of (analyzeCertificate secret))
               <> Some ("error decoding certificate data: " +:+ cause)).
Proof.
  intros Hdata.
  assert (Hsame :
    (base64.DecodeString (string_of_list_byte (stripMarkers certData))).1
      = (base64.DecodeString
           (string_of_list_byte (without_newlines (stripMarkers certData)))).1
    /\ ((base64.DecodeString (string_of_list_byte (stripMarkers certData))).2 = None
        <-> (base64.DecodeString
               (string_of_list_byte (without_newlines (stripMarkers certData)))).2 = None)).
  { unfold base64.DecodeString. rewrite !list_byte_of_string_of_list_byte.
    apply decode_without. }
  split; [|split; [exact (proj1 Hsame) | split; [exact (proj2 Hsame)|]]].
  - intros b Hin Hchar Hlf Hcr.
    assert (Hmap : base64.decodeMap b = 255).
    { destruct (decide (base64.decodeMap b = 255)) as [|Hne]; [done|].
      destruct Hchar. left. by apply decodeMap_alphabet. }
    assert (Hnl : base64.isNewline b = false).
    { unfold base64.isNewline. apply orb_false_intro.
      - destruct (Byte.eqb b "010") eqn:Heq; [|done]. by apply Byte.byte_dec_bl in Heq.
      - destruct (Byte.eqb b "013") eqn:Heq; [|done]. by apply Byte.byte_dec_bl in Heq. }
    assert (Hpad : b <> base64.padChar).
    { intros ->. apply Hchar. by right. }
    destruct (decode_rejects _ _ Hin Hmap Hnl Hpad 0 0%nat 0 0 0 []) as [n Hn].
    exists (base64.CorruptInputError n).
    assert (Hfail : analyzeCertificate secret
      = ((EmptyString,
          Some ("error decoding certificate data: " +:+ base64.CorruptInputError n)), [])).
    { unfold analyzeCertificate, base64.DecodeString.
      rewrite Hdata, list_byte_of_string_of_list_byte.
      destruct (base64.decode _ _ _ _ _ _ _) as [certBytes err]. cbn in Hn. by subst err. }
    split; [exact Hfail|].
    by rewrite secretsLoop_cons, Hfail.
  - intros certBytes Hclean.
    destruct Hsame as [Hbytes Hnone]. rewrite Hclean in Hbytes, Hnone.
    cbn [fst snd] in Hbytes, Hnone.
    destruct (analyzeCertificate_decoder secret certData Hdata) as [_ Hok].
    destruct (base64.DecodeString (string_of_list_byte (stripMarkers certData)))
      as [certBytes' o].
    cbn [fst snd] in Hbytes, Hnone. subst certBytes'.
    destruct Hnone as [_ Hnone]. rewrite (Hnone eq_refl) in Hok.
    destruct (Hok certBytes eq_refl) as [Htrace Hvalue].
    split; [exact Htrace|].
    intros cause. rewrite Hvalue.
    destruct (openssl_enddate certBytes) as [output [err|]]; cbn [snd]; [|discriminate].
    intros Herr. apply (f_equal (fun o => String.get 0 (default EmptyString o))) in Herr.
    discriminate.
Qed.

End Program.

(** * The program on the small cluster *)

(** A pass-through server followed by a terminated one. *)
Lemma soft_skip_fetches_nothing_witness :
  soft_skip (Example.serverRecord "PASSTHROUGH" "key-only")
  /\ serversLoop Example.fmt_value Example.Secrets_Get "shop"
       [Example.server "PASSTHROUGH" "key-only"; Example.server "SIMPLE" "shop-cert"] []
     = (([Example.shopCert], None), [EvGetSecret "shop" "shop-cert"]).
Proof.
  assert (Hskip : soft_skip (Example.serverRecord "PASSTHROUGH" "key-only")).
  { right; right; left. vm_compute. reflexivity. }
  split; [exact Hskip|].
  destruct (soft_skip_fetches_nothing Example.fmt_value Example.Secrets_Get "shop"
              (Example.serverRecord "PASSTHROUGH" "key-only")
              [Example.server "SIMPLE" "shop-cert"] [] Hskip) as [Hloop _].
  unfold Example.server at 1. rewrite Hloop. vm_compute. reflexivity.
Defined.


(** A gateway with two terminated servers that name the same credential,
    around a pass-through one. *)
Lemma extraction_order_witness :
  value_of (getGatewaySecrets Example.fmt_value Example.Secrets_Get Example.twice)
    = ([Example.shopCert; Example.shopCert], None)
  /\ exists servers,
       spec_servers Example.twice = Some servers
       /\ omap terminated servers = ["shop-cert"; "shop-cert"].
Proof.
  assert (Hok : value_of (getGatewaySecrets Example.fmt_value Example.Secrets_Get Example.twice)
                = ([Example.shopCert; Example.shopCert], None)).
  { vm_compute. reflexivity. }
  split; [exact Hok|].
  destruct (extraction_order Example.fmt_value Example.Secrets_Get Example.twice _ Hok)
    as (servers & Hservers & _).
  exists servers. split; [exact Hservers|].
  vm_compute in Hservers. injection Hservers as <-. vm_compute. reflexivity.
Defined.

(** A secret that has a key but no certificate, before a sound one. *)
Lemma secret_failure_nonfatal_witness :
  stdout_of (trace (secretsLoop Example.fmt_value Example.TrimFunc Example.TrimFunc
                      Example.openssl_enddate Example.mixed "shop"
                      [Example.keyOnly; Example.shopCert]))
  = ["error analyzing certificate for gateway mixed in namespace shop: tls.crt not found in secret" +:+ nl;
     "Certificate shop-cert in gateway mixed in namespace shop expiration date is Jan  1 00:00:00 2030 GMT" +:+ nl].
Proof.
  destruct (secret_failure_nonfatal Example.fmt_value Example.TrimFunc Example.TrimFunc
              Example.openssl_enddate Example.mixed "shop" Example.keyOnly
              [Example.shopCert]) as [Hloop Hmissing].
  destruct (Hloop "tls.crt not found in secret") as [_ Hout].
  { rewrite Hmissing; [reflexivity|]. vm_compute. reflexivity. }
  rewrite Hout. vm_compute. reflexivity.
Defined.

(** On the cluster the listing fails in [down], after [shop] and before
    [later]. *)
Lemma listing_failure_aborts_witness :
  main Example.fmt_value Example.TrimFunc Example.TrimFunc None None None
    Example.Namespaces_List Example.Gateways_List Example.Secrets_Get
    Example.openssl_enddate
  = (tt,
     EvListNamespaces
       :: trace (getNsGateways Example.fmt_value Example.TrimFunc Example.TrimFunc
                   Example.Gateways_List Example.Secrets_Get Example.openssl_enddate
                   ["shop"])
       ++ [EvListGateways "down";
           EvStdout ("error getting resources per namespace: the server is currently unable to handle the request" +:+ nl)]).
Proof.
  destruct (listing_failure_aborts Example.fmt_value Example.TrimFunc Example.TrimFunc
              None None None Example.Namespaces_List Example.Gateways_List
              Example.Secrets_Get Example.openssl_enddate
              ["shop"] ["later"] "down"
              "the server is currently unable to handle the request"
              [ {| nsName := "kube-system" |}; {| nsName := "shop" |};
                {| nsName := "xcp-multicluster" |}; {| nsName := "down" |};
                {| nsName := "later" |} ]) as [_ Hmain].
  - repeat constructor. eexists. vm_compute. reflexivity.
  - vm_compute. reflexivity.
  - apply Hmain; vm_compute; reflexivity.
Defined.

(** The namespaces of the cluster that are scanned. *)
Lemma reserved_namespaces_excluded_witness :
  getNamespaces Example.Namespaces_List = ((["shop"; "down"; "later"], None), [EvListNamespaces]).
Proof.
  destruct (reserved_namespaces_excluded Example.fmt_value Example.TrimFunc Example.TrimFunc
              None None None Example.Namespaces_List Example.Gateways_List
              Example.Secrets_Get Example.openssl_enddate
              [ {| nsName := "kube-system" |}; {| nsName := "shop" |};
                {| nsName := "xcp-multicluster" |}; {| nsName := "down" |};
                {| nsName := "later" |} ]) as (Hget & _ & _).
  - vm_compute. reflexivity.
  - rewrite Hget. vm_compute. reflexivity.
Defined.

(** The one result line of namespace [shop]. *)
Lemma result_lines_sound_witness :
  exists ns items gw servers server mode credentialName secret expiryDate,
    ns ∈ ["shop"; "later"]
    /\ Example.Gateways_List ns = Ok items
    /\ gw ∈ items
    /\ spec_servers gw = Some servers
    /\ VMap server ∈ servers
    /\ server_string server "tls" "mode" = Some mode
    /\ mode <> "PASSTHROUGH"
    /\ server_string server "tls" "credentialName" = Some credentialName
    /\ Example.Secrets_Get (unstructured.GetNamespace Example.fmt_value gw) credentialName
       = Ok secret
    /\ value_of (analyzeCertificate Example.TrimFunc Example.TrimFunc
                   Example.openssl_enddate secret) = (expiryDate, None)
    /\ "Certificate shop-cert in gateway edge in namespace shop expiration date is Jan  1 00:00:00 2030 GMT" +:+ nl
       = result_line (Name secret) (unstructured.GetName Example.fmt_value gw) ns expiryDate.
Proof.
  apply (result_lines_sound Example.fmt_value Example.TrimFunc Example.TrimFunc
           Example.Gateways_List Example.Secrets_Get Example.openssl_enddate
           ["shop"; "later"]).
  - apply (bool_decide_unpack _). vm_compute. exact I.
  - vm_compute. reflexivity.
Defined.

(** The certificate of [shop-cert], reached through gateway [edge]. *)
Lemma expiration_line_witness :
  value_of (analyzeCertificate Example.TrimFunc Example.TrimFunc Example.openssl_enddate
              Example.shopCert) = ("Jan  1 00:00:00 2030 GMT", None)
  /\ stdout_of (trace (secretsLoop Example.fmt_value Example.TrimFunc Example.TrimFunc
                         Example.openssl_enddate Example.edge "shop" [Example.shopCert]))
     = ["Certificate shop-cert in gateway edge in namespace shop expiration date is Jan  1 00:00:00 2030 GMT" +:+ nl].
Proof.
  assert (Hok : value_of (analyzeCertificate Example.TrimFunc Example.TrimFunc
                            Example.openssl_enddate Example.shopCert)
                = ("Jan  1 00:00:00 2030 GMT", None)).
  { vm_compute. reflexivity. }
  split; [exact Hok|].
  destruct (expiration_line Example.fmt_value Example.TrimFunc Example.TrimFunc
              Example.openssl_enddate Example.edge "shop" Example.shopCert [] _ Hok)
    as (certData & certBytes & output & _ & _ & _ & _ & _ & Hline).
  rewrite Hline. vm_compute. reflexivity.
Defined.

(** A PEM text wrapped the usual way: the line feeds inside the body are
    outside the alphabet and the padding, they survive the removal of the
    two markers, and yet the payload is decoded and handed to [openssl]. *)
Lemma line_wrapped_pem_is_decoded :
  Data Example.shopCert !! "tls.crt" = Some Example.pem
  /\ "010"%byte ∈ stripMarkers Example.pem
  /\ ~ base64_char "010"%byte
  /\ analyzeCertificate Example.TrimFunc Example.TrimFunc Example.openssl_enddate
       Example.shopCert
     = (("Jan  1 00:00:00 2030 GMT", None), [EvExec (list_byte_of_string "ABCDEF")])
  /\ ~ (exists err,
          analyzeCertificate Example.TrimFunc Example.TrimFunc Example.openssl_enddate
            Example.shopCert = ((EmptyString, Some err), [])).
Proof.
  split; [vm_compute; reflexivity|].
  split; [apply (bool_decide_unpack _); vm_compute; exact I|].
  split; [apply (bool_decide_unpack _); vm_compute; exact I|].
  split; [vm_compute; reflexivity|].
  intros [err Herr]. vm_compute in Herr. discriminate.
Defined.

(** A payload with an asterisk in it is refused before [openssl] runs; a
    payload whose lines end in carriage return and line feed is decoded. *)
Lemma decode_error_before_openssl_witness :
  analyzeCertificate Example.TrimFunc Example.TrimFunc Example.openssl_enddate Example.garbled
  = ((EmptyString,
      Some "error decoding certificate data: illegal base64 data at input byte 4"), [])
  /\ trace (analyzeCertificate Example.TrimFunc Example.TrimFunc Example.openssl_enddate
              Example.crlfCert) = [EvExec (list_byte_of_string "ABCDEF")].
Proof.
  split.
  - destruct (decode_error_before_openssl Example.fmt_value Example.TrimFunc
                Example.TrimFunc Example.openssl_enddate Example.edge "shop"
                Example.garbled [] (list_byte_of_string "QUJD*REVG")) as (Hbad & _).
    + vm_compute. reflexivity.
    + destruct (Hbad "*"%byte) as (cause & Hfail & _).
      * apply (bool_decide_unpack _). vm_compute. exact I.
      * apply (bool_decide_unpack _). vm_compute. exact I.
      * discriminate.
      * discriminate.
      * vm_compute. reflexivity.
  - destruct (decode_error_before_openssl Example.fmt_value Example.TrimFunc
                Example.TrimFunc Example.openssl_enddate Example.edge "shop"
                Example.crlfCert []
                (list_byte_of_string
                   ("QUJD" +:+ String "013"%char nl +:+ "REVG" +:+ String "013"%char nl)))
      as (_ & _ & _ & Hclean).
    + vm_compute. reflexivity.
    + destruct (Hclean (list_byte_of_string "ABCDEF")) as [Htrace _].
      * vm_compute. reflexivity.
      * exact Htrace.
Defined.

(** C1: the extraction of gateway [broken] fails, the scan of the namespace
    goes on with gateway [edge], and one diagnostic is printed.  The
    diagnostic carries the namespace and the cause but not the name of the
    gateway: [renamed], which differs from [broken] in its name only,
    yields the very same line. *)
Theorem gateway_diagnostic_omits_gateway :
  unstructured.GetName Example.fmt_value Example.broken = "broken"
  /\ unstructured.GetName Example.fmt_value Example.renamed = "other"
  /\ stdout_of (trace (gatewaysLoop Example.fmt_value Example.TrimFunc Example.TrimFunc
                         Example.Secrets_Get Example.openssl_enddate "shop"
                         [Example.broken; Example.edge]))
     = ["error getting secrets for gateway in namespace shop: error getting secret gone in namespace shop: secrets gone not found" +:+ nl;
        "Certificate shop-cert in gateway edge in namespace shop expiration date is Jan  1 00:00:00 2030 GMT" +:+ nl]
  /\ stdout_of (trace (gatewaysLoop Example.fmt_value Example.TrimFunc Example.TrimFunc
                         Example.Secrets_Get Example.openssl_enddate "shop"
                         [Example.renamed; Example.edge]))
     = stdout_of (trace (gatewaysLoop Example.fmt_value Example.TrimFunc Example.TrimFunc
                           Example.Secrets_Get Example.openssl_enddate "shop"
                           [Example.broken; Example.edge])).
Proof. repeat split; vm_compute; reflexivity. Qed.

(** The two examples of the specification: a terminated server yields one
    line, the same server in pass-through mode yields nothing at all. *)
Example terminated_server_one_line :
  gatewaysLoop Example.fmt_value Example.TrimFunc Example.TrimFunc Example.Secrets_Get
    Example.openssl_enddate "shop" [Example.edge]
  = (tt,
     [EvGetSecret "shop" "shop-cert";
      EvExec (list_byte_of_string "ABCDEF");
      EvStdout ("Certificate shop-cert in gateway edge in namespace shop expiration date is Jan  1 00:00:00 2030 GMT" +:+ nl)]).
Proof. vm_compute. reflexivity. Qed.

Example passthrough_server_no_line :
  gatewaysLoop Example.fmt_value Example.TrimFunc Example.TrimFunc Example.Secrets_Get
    Example.openssl_enddate "shop" [Example.quiet] = (tt, []).
Proof. vm_compute. reflexivity. Qed.

(** A gateway without servers has no secrets and costs no diagnostic. *)
Example no_servers_no_secrets :
  getGatewaySecrets Example.fmt_value Example.Secrets_Get Example.bare = (([], None), []).
Proof. vm_compute. reflexivity. Qed.

(** ** Further runs on the small cluster *)

(** A start-up in which the configuration is found and the client cannot
    be built. *)
Lemma client_failure_stops_main_witness :
  main Example.fmt_value Example.TrimFunc Example.TrimFunc
    None (Some "no such host") (Some "never reached")
    Example.Namespaces_List Example.Gateways_List Example.Secrets_Get
    Example.openssl_enddate
  = (tt, [EvStdout ("error creating the k8s clients: unable to create k8s client: no such host" +:+ nl)]).
Proof.
  destruct (client_failure_stops_main Example.fmt_value Example.TrimFunc Example.TrimFunc
              None (Some "no such host") (Some "never reached")
              Example.Namespaces_List Example.Gateways_List Example.Secrets_Get
              Example.openssl_enddate) as [_ Hfail].
  destruct (Hfail "unable to create k8s client: no such host") as [Hmain _].
  - vm_compute. reflexivity.
  - rewrite Hmain. vm_compute. reflexivity.
Defined.

(** A cluster that refuses to list its namespaces. *)
Lemma namespace_listing_failure_stops_main_witness :
  main Example.fmt_value Example.TrimFunc Example.TrimFunc None None None
    (Err "namespaces is forbidden") Example.Gateways_List Example.Secrets_Get
    Example.openssl_enddate
  = (tt,
     [EvListNamespaces;
      EvStdout ("error getting the list of namespaces: unable to get the list of namespaces: namespaces is forbidden" +:+ nl)]).
Proof.
  destruct (namespace_listing_failure_stops_main Example.fmt_value Example.TrimFunc
              Example.TrimFunc None None None (Err "namespaces is forbidden")
              Example.Gateways_List Example.Secrets_Get Example.openssl_enddate
              "namespaces is forbidden") as [_ Hmain].
  - reflexivity.
  - rewrite Hmain; vm_compute; reflexivity.
Defined.

(** The scan of the small cluster stops in [down] and never reaches
    [later]. *)
Lemma scan_lists_in_order_witness :
  listings_of (trace (getNsGateways Example.fmt_value Example.TrimFunc Example.TrimFunc
                        Example.Gateways_List Example.Secrets_Get Example.openssl_enddate
                        ["shop"; "down"; "later"]))
  = ["shop"; "down"]
  /\ exists ns,
       last ["shop"; "down"] = Some ns
       /\ Example.Gateways_List ns
          = Err "the server is currently unable to handle the request".
Proof.
  destruct (scan_lists_in_order Example.fmt_value Example.TrimFunc Example.TrimFunc
              Example.Gateways_List Example.Secrets_Get Example.openssl_enddate
              ["shop"; "down"; "later"]) as (_ & _ & _ & Herr).
  split; [vm_compute; reflexivity|].
  destruct (Herr "the server is currently unable to handle the request") as (ns & Hlast & Hfail).
  - vm_compute. reflexivity.
  - exists ns. split; [|exact Hfail].
    vm_compute in Hlast. vm_compute. exact Hlast.
Defined.

(** The gateways of [shop] are listed; [shop] is not a reserved name. *)
Lemma reserved_namespaces_never_listed_witness :
  "shop" <> "kube-system" /\ "shop" <> "xcp-multicluster"
  /\ exists items,
       Example.Namespaces_List = Ok items /\ "shop" ∈ (nsName <$> items).
Proof.
  apply (reserved_namespaces_never_listed Example.fmt_value Example.TrimFunc
           Example.TrimFunc None None None Example.Namespaces_List
           Example.Gateways_List Example.Secrets_Get Example.openssl_enddate "shop").
  apply (bool_decide_unpack _). vm_compute. exact I.
Defined.

(** The one successful fetch of namespace [shop] stems from the server of
    gateway [edge]. *)
Lemma fetches_come_from_terminated_servers_witness :
  exists ns items gw servers server mode,
    ns ∈ ["shop"]
    /\ Example.Gateways_List ns = Ok items
    /\ gw ∈ items
    /\ spec_servers gw = Some servers
    /\ VMap server ∈ servers
    /\ server_string server "tls" "mode" = Some mode
    /\ mode <> "PASSTHROUGH"
    /\ server_string server "tls" "credentialName" = Some "shop-cert"
    /\ "shop" = unstructured.GetNamespace Example.fmt_value gw.
Proof.
  apply (fetches_come_from_terminated_servers Example.fmt_value Example.TrimFunc
           Example.TrimFunc Example.Gateways_List Example.Secrets_Get
           Example.openssl_enddate ["shop"] "shop" "shop-cert").
  apply (bool_decide_unpack _). vm_compute. exact I.
Defined.

(** A gateway with one pass-through server, before gateway [edge]. *)
Lemma skipped_gateway_is_silent_witness :
  gatewaysLoop Example.fmt_value Example.TrimFunc Example.TrimFunc Example.Secrets_Get
    Example.openssl_enddate "shop" [Example.quiet; Example.edge]
  = gatewaysLoop Example.fmt_value Example.TrimFunc Example.TrimFunc Example.Secrets_Get
      Example.openssl_enddate "shop" [Example.edge].
Proof.
  destruct (skipped_gateway_is_silent Example.fmt_value Example.TrimFunc Example.TrimFunc
              Example.Secrets_Get Example.openssl_enddate "shop" Example.quiet
              [Example.edge] [Example.server "PASSTHROUGH" "shop-cert"]) as [_ Hloop].
  - vm_compute. reflexivity.
  - repeat constructor. eexists. split; [reflexivity|].
    right; right; left. vm_compute. reflexivity.
  - exact Hloop.
Defined.

(** The certificate of [shop-cert] under an [openssl] that fails. *)
Lemma analysis_failures_witness :
  exists certData certBytes output cause,
    Data Example.shopCert !! "tls.crt" = Some certData
    /\ base64.DecodeString (string_of_list_byte (stripMarkers certData)) = (certBytes, None)
    /\ Example.openssl_failing certBytes = (output, Some cause)
    /\ "openssl error: exit status 1" = "openssl error: " +:+ cause
    /\ trace (analyzeCertificate Example.TrimFunc Example.TrimFunc Example.openssl_failing
                Example.shopCert) = [EvExec certBytes].
Proof.
  destruct (analysis_failures Example.TrimFunc Example.TrimFunc Example.openssl_failing
              Example.shopCert EmptyString "openssl error: exit status 1")
    as [_ [(Hmissing & _)|[(certData & cause & Hdata & _ & Herr & _)|Hopenssl]]].
  - vm_compute. reflexivity.
  - vm_compute in Hmissing. discriminate.
  - exfalso. apply (f_equal (fun s => String.get 0 s)) in Herr.
    vm_compute in Herr. discriminate.
  - exact Hopenssl.
Defined.

(** The certificate of [shop-cert] under an [openssl] that writes the
    prefix and a line feed. *)
Lemma blank_output_still_printed_witness :
  stdout_of (trace (secretsLoop Example.fmt_value Example.TrimFunc Example.TrimFunc
                      Example.openssl_blank Example.edge "shop" [Example.shopCert]))
  = ["Certificate shop-cert in gateway edge in namespace shop expiration date is " +:+ nl].
Proof.
  destruct (blank_output_still_printed Example.fmt_value Example.TrimFunc Example.TrimFunc
              Example.openssl_blank Example.edge "shop" Example.shopCert []
              Example.pem (list_byte_of_string "ABCDEF")
              (list_byte_of_string ("notAfter=" +:+ nl)) nl) as [_ Hline].
  - vm_compute. reflexivity.
  - vm_compute. reflexivity.
  - reflexivity.
  - repeat constructor.
  - right. vm_compute. reflexivity.
  - rewrite Hline. vm_compute. reflexivity.
Defined.

(** The body alone, on one line. *)
Lemma bare_payload_decoded_as_is_witness :
  trace (analyzeCertificate Example.TrimFunc Example.TrimFunc Example.openssl_enddate
           Example.bareCert) = [EvExec (list_byte_of_string "ABCDEF")].
Proof.
  destruct (bare_payload_decoded_as_is Example.TrimFunc Example.TrimFunc
              Example.openssl_enddate Example.bareCert (list_byte_of_string "QUJDREVG"))
    as [_ Hok].
  - vm_compute. reflexivity.
  - apply (bool_decide_unpack _). vm_compute. exact I.
  - apply Hok. vm_compute. reflexivity.
Defined.

(** The wrapped text: header, two lines of body, footer, line feed. *)
Lemma pem_envelope_removed_witness :
  trace (analyzeCertificate Example.TrimFunc Example.TrimFunc Example.openssl_enddate
           Example.shopCert) = [EvExec (list_byte_of_string "ABCDEF")].
Proof.
  destruct (pem_envelope_removed Example.TrimFunc Example.TrimFunc Example.openssl_enddate
              Example.shopCert Example.pemBody (list_byte_of_string nl)) as [_ Hok].
  - vm_compute. reflexivity.
  - apply (bool_decide_unpack _). vm_compute. exact I.
  - apply (bool_decide_unpack _). vm_compute. exact I.
  - apply Hok. vm_compute. reflexivity.
Defined.

(** The wrapped text against the body alone. *)
Lemma pem_wrapping_is_transparent_witness :
  trace (analyzeCertificate Example.TrimFunc Example.TrimFunc Example.openssl_enddate
           Example.shopCert)
  = trace (analyzeCertificate Example.TrimFunc Example.TrimFunc Example.openssl_enddate
             Example.bareCert).
Proof.
  destruct (pem_wrapping_is_transparent Example.TrimFunc Example.TrimFunc
              Example.openssl_enddate Example.bareCert Example.shopCert
              Example.pemBody (list_byte_of_string nl)) as [Htrace _].
  - vm_compute. reflexivity.
  - vm_compute. reflexivity.
  - apply (bool_decide_unpack _). vm_compute. exact I.
  - repeat constructor.
  - exact Htrace.
Defined.
